(** * Session manager of pos-toko-bugis-v2: [AuthContext.tsx]

    A shallow embedding of the React authentication context: the startup
    restore effect, [login], [signup] and [logout], in the two versions of
    the file that the repository carries
    ([src/context/AuthContext.tsx] and the variant copy [unnamed/part_000]).

    Layout: the JavaScript platform ([JSON], [localStorage], toasts, the
    console and the Supabase client) comes first, then the two versions of
    the component, then the lemmas. *)

From Stdlib Require Import Ascii String Decimal NArith List Bool Lia.
From stdpp Require Import gmap strings.

Open Scope string_scope.
Set Warnings "-register-all".

(* ===================================================================== *)
(** ** JSON values, [JSON.stringify] and [JSON.parse]                     *)
(* ===================================================================== *)

(** JavaScript strings are carried as their UTF-8 bytes.  Numbers are kept
    as the decimal literal they were read from (the component never
    computes with a number), so binary64 rounding is not part of the
    model.  An object is the list of its members in source order; a
    property read takes the last member of that name, which is what
    [JSON.parse] keeps for a repeated key. *)
Module JSON.

Inductive value : Type :=
| JNull
| JBool (b : bool)
| JNum (d : decimal)
| JStr (s : string)
| JArr (elements : list value)
| JObj (members : list (string * value)).

(** What a parser run ends with.  [OutOfFuel] is an artefact of the
    fuel-bounded recursion: [parse_never_out_of_fuel] below shows that
    [parse] never returns it. *)
Inductive result (A : Type) : Type :=
| Ok (a : A)
| SyntaxError
| OutOfFuel.
Arguments Ok {A} a.
Arguments SyntaxError {A}.
Arguments OutOfFuel {A}.

Definition dquote : ascii := "034"%char.
Definition backslash : ascii := "092"%char.
Definition str1 (c : ascii) : string := String c "".

(** *** Property reads: [o.k] *)

Fixpoint lookup_member (k : string) (ms : list (string * value)) : option value :=
  match ms with
  | [] => None
  | (k', v) :: rest =>
      match lookup_member k rest with
      | Some v' => Some v'
      | None => if String.eqb k' k then Some v else None
      end
  end.

(** [get v k] is [Some x] when the read yields [x] and [None] when it
    yields [undefined].  (Only members of objects are modelled: the
    component reads no inherited property and no array index.) *)
Definition get (v : value) (k : string) : option value :=
  match v with
  | JObj ms => lookup_member k ms
  | _ => None
  end.

(** *** [JSON.stringify] *)

Definition hex_char (n : N) : ascii :=
  match n with
  | 0 => "0" | 1 => "1" | 2 => "2" | 3 => "3" | 4 => "4" | 5 => "5" | 6 => "6"
  | 7 => "7" | 8 => "8" | 9 => "9" | 10 => "a" | 11 => "b" | 12 => "c"
  | 13 => "d" | 14 => "e" | _ => "f"
  end%N%char.

(** QuoteJSONString, one code unit: the two-character escapes, [\u00XX]
    for the other control characters, everything else as it is. *)
Definition escape_char (c : ascii) : string :=
  match c with
  | "034" => String backslash (String dquote "")
  | "092" => String backslash (String backslash "")
  | "008" => String backslash "b"
  | "012" => String backslash "f"
  | "010" => String backslash "n"
  | "013" => String backslash "r"
  | "009" => String backslash "t"
  | _ =>
      if (N_of_ascii c <? 32)%N
      then String backslash
             (String "u" (String "0" (String "0"
                (String (hex_char (N_of_ascii c / 16))
                   (String (hex_char (N_of_ascii c mod 16)) "")))))
      else String c ""
  end%char.

Fixpoint escape (s : string) : string :=
  match s with
  | "" => ""
  | String c r => escape_char c +:+ escape r
  end.

Definition quote (s : string) : string :=
  String dquote (escape s +:+ String dquote "").

Fixpoint string_of_uint (u : uint) : string :=
  match u with
  | Nil => ""
  | D0 u => String "0" (string_of_uint u)
  | D1 u => String "1" (string_of_uint u)
  | D2 u => String "2" (string_of_uint u)
  | D3 u => String "3" (string_of_uint u)
  | D4 u => String "4" (string_of_uint u)
  | D5 u => String "5" (string_of_uint u)
  | D6 u => String "6" (string_of_uint u)
  | D7 u => String "7" (string_of_uint u)
  | D8 u => String "8" (string_of_uint u)
  | D9 u => String "9" (string_of_uint u)
  end.

Definition string_of_int (i : int) : string :=
  match i with
  | Pos u => string_of_uint u
  | Neg u => String "-" (string_of_uint u)
  end.

Definition string_of_frac (f : uint) : string :=
  match f with
  | Nil => ""
  | _ => String "." (string_of_uint f)
  end.

Definition string_of_decimal (d : decimal) : string :=
  match d with
  | Decimal i f => string_of_int i +:+ string_of_frac f
  | DecimalExp i f e =>
      string_of_int i +:+ string_of_frac f +:+ String "e" (string_of_int e)
  end.

Definition join_comma (parts : list string) : string :=
  match parts with
  | [] => ""
  | p :: ps => fold_left (fun acc q => acc +:+ String "," q) ps p
  end.

(** No indentation argument is ever passed, so the text has no white
    space outside strings. *)
Fixpoint stringify (v : value) : string :=
  match v with
  | JNull => "null"
  | JBool true => "true"
  | JBool false => "false"
  | JNum d => string_of_decimal d
  | JStr s => quote s
  | JArr vs => String "[" (join_comma (map stringify vs) +:+ "]")
  | JObj ms =>
      String "{"
        (join_comma (map (fun kv => quote (fst kv) +:+ String ":" (stringify (snd kv))) ms)
           +:+ "}")
  end.

(** *** [JSON.parse] *)

Definition is_ws (c : ascii) : bool :=
  (Ascii.eqb c " " || Ascii.eqb c "009" || Ascii.eqb c "010" || Ascii.eqb c "013")%char.

Fixpoint skip_ws (s : string) : string :=
  match s with
  | String c r => if is_ws c then skip_ws r else s
  | "" => s
  end.

(** [strip_prefix p s] is what follows [p] in [s], when [s] starts with
    [p]. *)
Fixpoint strip_prefix (p s : string) : option string :=
  match p with
  | "" => Some s
  | String a p' =>
      match s with
      | String b s' => if Ascii.eqb a b then strip_prefix p' s' else None
      | "" => None
      end
  end.

Definition digit (c : ascii) : option (uint -> uint) :=
  match c with
  | "0" => Some D0 | "1" => Some D1 | "2" => Some D2 | "3" => Some D3
  | "4" => Some D4 | "5" => Some D5 | "6" => Some D6 | "7" => Some D7
  | "8" => Some D8 | "9" => Some D9 | _ => None
  end%char.

(** The longest run of digits at the head of [s]. *)
Fixpoint scan_digits (s : string) : uint * string :=
  match s with
  | String c r =>
      match digit c with
      | Some d => let (u, r') := scan_digits r in (d u, r')
      | None => (Nil, s)
      end
  | "" => (Nil, s)
  end.

(** One digit at least. *)
Definition scan_digits1 (s : string) : option (uint * string) :=
  match scan_digits s with
  | (Nil, _) => None
  | (u, r) => Some (u, r)
  end.

(** int = 0 | [1-9][0-9]* *)
Definition scan_int (s : string) : option (uint * string) :=
  match strip_prefix "0" s with
  | Some r => Some (D0 Nil, r)
  | None => scan_digits1 s
  end.

(** frac = "." [0-9]+ , optional *)
Definition scan_frac (s : string) : option (uint * string) :=
  match strip_prefix "." s with
  | Some r => scan_digits1 r
  | None => Some (Nil, s)
  end.

Definition scan_exp_digits (s : string) : option (option int * string) :=
  match strip_prefix "-" s with
  | Some r =>
      match scan_digits1 r with
      | Some (e, r') => Some (Some (Neg e), r')
      | None => None
      end
  | None =>
      match scan_digits1 (default s (strip_prefix "+" s)) with
      | Some (e, r') => Some (Some (Pos e), r')
      | None => None
      end
  end.

(** exp = [eE] [+-]? [0-9]+ , optional *)
Definition scan_exp (s : string) : option (option int * string) :=
  match strip_prefix "e" s, strip_prefix "E" s with
  | Some r, _ | None, Some r => scan_exp_digits r
  | None, None => Some (None, s)
  end.

Definition parse_number (s : string) : result (decimal * string) :=
  let (neg, s1) := match strip_prefix "-" s with
                   | Some r => (true, r)
                   | None => (false, s)
                   end in
  match scan_int s1 with
  | None => SyntaxError
  | Some (u, s2) =>
      let i := if neg then Neg u else Pos u in
      match scan_frac s2 with
      | None => SyntaxError
      | Some (f, s3) =>
          match scan_exp s3 with
          | None => SyntaxError
          | Some (None, s4) => Ok (Decimal i f, s4)
          | Some (Some e, s4) => Ok (DecimalExp i f e, s4)
          end
      end
  end.

Definition hex_digit (c : ascii) : option N :=
  let n := N_of_ascii c in
  if ((48 <=? n) && (n <=? 57))%N then Some (n - 48)%N
  else if ((97 <=? n) && (n <=? 102))%N then Some (n - 87)%N
  else if ((65 <=? n) && (n <=? 70))%N then Some (n - 55)%N
  else None.

Definition hex4 (a b c d : ascii) : option N :=
  match hex_digit a, hex_digit b, hex_digit c, hex_digit d with
  | Some x, Some y, Some z, Some w => Some (((x * 16 + y) * 16 + z) * 16 + w)%N
  | _, _, _, _ => None
  end.

Definition is_high_surrogate (n : N) : bool := ((55296 <=? n) && (n <=? 56319))%N.
Definition is_low_surrogate (n : N) : bool := ((56320 <=? n) && (n <=? 57343))%N.

Definition byte (n : N) : ascii := ascii_of_N (n mod 256).

(** The UTF-8 bytes of a code point. *)
Definition utf8 (cp : N) : string :=
  if (cp <? 128)%N then String (byte cp) ""
  else if (cp <? 2048)%N then
    String (byte (192 + cp / 64)) (String (byte (128 + cp mod 64)) "")
  else if (cp <? 65536)%N then
    String (byte (224 + cp / 4096))
      (String (byte (128 + (cp / 64) mod 64)) (String (byte (128 + cp mod 64)) ""))
  else
    String (byte (240 + cp / 262144))
      (String (byte (128 + (cp / 4096) mod 64))
         (String (byte (128 + (cp / 64) mod 64)) (String (byte (128 + cp mod 64)) ""))).

(** The character a two-character escape stands for. *)
Definition simple_escape (e : ascii) : option ascii :=
  match e with
  | "034" => Some "034" | "092" => Some "092" | "/" => Some "/"
  | "b" => Some "008" | "f" => Some "012" | "n" => Some "010"
  | "r" => Some "013" | "t" => Some "009" | _ => None
  end%char.

Definition prepend (p : string) (r : result (string * string)) : result (string * string) :=
  match r with
  | Ok (s, rest) => Ok (p +:+ s, rest)
  | SyntaxError => SyntaxError
  | OutOfFuel => OutOfFuel
  end.

(** The body of a string literal, after its opening quote: up to the
    closing quote, escapes decoded. *)
Fixpoint parse_string (s : string) : result (string * string) :=
  match s with
  | EmptyString => SyntaxError
  | String c r =>
      if Ascii.eqb c dquote then Ok (EmptyString, r)
      else if Ascii.eqb c backslash then
        match r with
        | EmptyString => SyntaxError
        | String e r =>
            match simple_escape e with
            | Some x => prepend (str1 x) (parse_string r)
            | None =>
                if Ascii.eqb e "u" then
                  match r with
                  | String a (String b (String c (String d r1))) =>
                      match hex4 a b c d with
                      | None => SyntaxError
                      | Some hi =>
                          if is_high_surrogate hi then
                            (* a surrogate pair is one code point *)
                            match r1 with
                            | String e1 (String e2 (String a2 (String b2
                                (String c2 (String d2 r2))))) =>
                                if Ascii.eqb e1 backslash && Ascii.eqb e2 "u" then
                                  match hex4 a2 b2 c2 d2 with
                                  | None => SyntaxError
                                  | Some lo =>
                                      if is_low_surrogate lo
                                      then prepend
                                             (utf8 (65536 + (hi - 55296) * 1024
                                                    + (lo - 56320))%N)
                                             (parse_string r2)
                                      else prepend (utf8 hi) (parse_string r1)
                                  end
                                else prepend (utf8 hi) (parse_string r1)
                            | _ => prepend (utf8 hi) (parse_string r1)
                            end
                          else prepend (utf8 hi) (parse_string r1)
                      end
                  | _ => SyntaxError
                  end
                else SyntaxError
            end
        end
      else if (N_of_ascii c <? 32)%N then SyntaxError
      else prepend (str1 c) (parse_string r)
  end%char.

(** A JSON value at the head of [s] (after white space), and what
    follows it.  Arrays and objects recurse; every call spends one unit
    of fuel. *)
Fixpoint parse_value (fuel : nat) (s : string) : result (value * string) :=
  match fuel with
  | O => OutOfFuel
  | S fuel =>
      let s1 := skip_ws s in
      match strip_prefix "null" s1 with
      | Some r => Ok (JNull, r)
      | None =>
      match strip_prefix "true" s1 with
      | Some r => Ok (JBool true, r)
      | None =>
      match strip_prefix "false" s1 with
      | Some r => Ok (JBool false, r)
      | None =>
      match strip_prefix (str1 dquote) s1 with
      | Some r =>
          match parse_string r with
          | Ok (str, r') => Ok (JStr str, r')
          | SyntaxError => SyntaxError
          | OutOfFuel => OutOfFuel
          end
      | None =>
      match strip_prefix "[" s1 with
      | Some r =>
          match strip_prefix "]" (skip_ws r) with
          | Some r' => Ok (JArr [], r')
          | None => parse_elements fuel [] (skip_ws r)
          end
      | None =>
      match strip_prefix "{" s1 with
      | Some r =>
          match strip_prefix "}" (skip_ws r) with
          | Some r' => Ok (JObj [], r')
          | None => parse_members fuel [] (skip_ws r)
          end
      | None =>
          match parse_number s1 with
          | Ok (d, r) => Ok (JNum d, r)
          | SyntaxError => SyntaxError
          | OutOfFuel => OutOfFuel
          end
      end end end end end end
  end

(** The elements of an array after [[]: value, then [,] or []]. *)
with parse_elements (fuel : nat) (acc : list value) (s : string)
  : result (value * string) :=
  match fuel with
  | O => OutOfFuel
  | S fuel =>
      match parse_value fuel s with
      | Ok (v, r) =>
          match strip_prefix "," (skip_ws r) with
          | Some r' => parse_elements fuel (v :: acc) r'
          | None =>
              match strip_prefix "]" (skip_ws r) with
              | Some r' => Ok (JArr (rev (v :: acc)), r')
              | None => SyntaxError
              end
          end
      | SyntaxError => SyntaxError
      | OutOfFuel => OutOfFuel
      end
  end

(** The members of an object after [{]: string, [:], value, then [,]
    or [}]. *)
with parse_members (fuel : nat) (acc : list (string * value)) (s : string)
  : result (value * string) :=
  match fuel with
  | O => OutOfFuel
  | S fuel =>
      match strip_prefix (str1 dquote) (skip_ws s) with
      | None => SyntaxError
      | Some r =>
          match parse_string r with
          | Ok (k, r1) =>
              match strip_prefix ":" (skip_ws r1) with
              | None => SyntaxError
              | Some r2 =>
                  match parse_value fuel r2 with
                  | Ok (v, r3) =>
                      match strip_prefix "," (skip_ws r3) with
                      | Some r4 => parse_members fuel ((k, v) :: acc) r4
                      | None =>
                          match strip_prefix "}" (skip_ws r3) with
                          | Some r4 => Ok (JObj (rev ((k, v) :: acc)), r4)
                          | None => SyntaxError
                          end
                      end
                  | SyntaxError => SyntaxError
                  | OutOfFuel => OutOfFuel
                  end
              end
          | SyntaxError => SyntaxError
          | OutOfFuel => OutOfFuel
          end
      end
  end.

Definition fuel_for (s : string) : nat := 2 * String.length s + 1.

(** [JSON.parse text]: one value, with nothing but white space after
    it. *)
Definition parse (text : string) : result value :=
  match parse_value (fuel_for text) text with
  | Ok (v, rest) =>
      match skip_ws rest with
      | EmptyString => Ok v
      | _ => SyntaxError
      end
  | SyntaxError => SyntaxError
  | OutOfFuel => OutOfFuel
  end.

End JSON.

(* ===================================================================== *)
(** ** The data model                                                     *)
(* ===================================================================== *)

(** Modelled from the spec: the [User] interface that the component
    imports from [../types].  The spec's data model gives it five fields,
    all of them text as far as this component is concerned; [role] is
    declared as the closed enumeration [admin | staff], which nothing
    checks at run time, so it is carried as the text the store holds. *)
Module User.
Record t : Type := mk {
  id : string;
  name : string;
  username : string;
  role : string;
  created_at : string
}.

(** The object literal [{ id, name, username, role, created_at }]. *)
Definition to_value (u : t) : JSON.value :=
  JSON.JObj [("id", JSON.JStr (id u));
             ("name", JSON.JStr (name u));
             ("username", JSON.JStr (username u));
             ("role", JSON.JStr (role u));
             ("created_at", JSON.JStr (created_at u))].
End User.

(** The argument of [signup]:
    [{ name: string; username: string; password: string; role: 'admin' | 'staff' }]. *)
Module UserData.
Inductive Role : Type := admin | staff.

Definition Role_to_string (r : Role) : string :=
  match r with admin => "admin" | staff => "staff" end.

Record t : Type := mk {
  name : string;
  username : string;
  password : string;
  role : Role
}.
End UserData.

(* ===================================================================== *)
(** ** The Supabase client                                                *)
(* ===================================================================== *)

(** The remote store is outside the program.  A [Backend] says how each
    request the component can issue settles: the promise is rejected, or
    it is fulfilled with a [{ data, error }] response. *)
Module Supabase.

(** Modelled from the spec: a row of the [users] table, as [select('*')]
    returns it.  The store contract of the spec gives every row the
    [User] fields and [password]. *)
Module Row.
Record t : Type := mk {
  id : string;
  name : string;
  username : string;
  role : string;
  password : string;
  created_at : string
}.
End Row.

Record PostgrestError : Type := mkError {
  code : string;
  message : string
}.

(** [{ data, error }]; [None] is [null]. *)
Record Response (A : Type) : Type := mkResponse {
  data : option A;
  error : option PostgrestError
}.
Arguments mkResponse {A} data error.
Arguments data {A} r.
Arguments error {A} r.

Inductive Awaited (A : Type) : Type :=
| Fulfilled (a : A)
| Rejected (reason : string).
Arguments Fulfilled {A} a.
Arguments Rejected {A} reason.

(** The requests of the component, as they go out. *)
Inductive request : Type :=
| Select (columns : string) (eq_username : string)
    (* from('users').select(columns).eq('username', u).single() *)
| Insert (values : UserData.t) (returning : bool).
    (* from('users').insert([values]), followed by .select().single()
       when [returning] *)

Definition is_insert (r : request) : bool :=
  match r with Insert _ _ => true | Select _ _ => false end.

Record Backend : Type := mkBackend {
  (* select('*'): the whole row *)
  select_all : string -> Awaited (Response Row.t);
  (* select('username'): the row's username column alone *)
  select_username : string -> Awaited (Response string);
  insert : UserData.t -> bool -> Awaited (Response Row.t)
}.

End Supabase.

(* ===================================================================== *)
(** ** The world the component runs in, and its command monad             *)
(* ===================================================================== *)

Inductive Toast : Type :=
| toast_error_msg (msg : string)
| toast_success_msg (msg : string).

Inductive exn : Type :=
| TypeError (msg : string)
| SyntaxError (msg : string)
| PromiseRejection (reason : string)
| QuotaExceededError.

(** The two pieces of React state of [AuthProvider], the browser's local
    storage, and what the component has emitted so far (oldest first).
    [storage_accepts key val] says whether the browser takes [val] under
    [key]: [localStorage.setItem] throws a [QuotaExceededError] when the
    storage has no room for it.  The component does not control it: other
    pages of the origin share the storage, so it may differ from one call
    to the next.  [getItem] and [removeItem] need no room and do not
    throw. *)
Record World : Type := mkWorld {
  user : JSON.value;                    (* useState<User | null>; [JNull] is null *)
  isLoading : bool;                     (* useState(true) *)
  localStorage : gmap string string;
  storage_accepts : string -> string -> bool;
  toasts : list Toast;
  console : list string;
  network : list Supabase.request
}.

Definition set_user (v : JSON.value) (w : World) : World :=
  mkWorld v (isLoading w) (localStorage w) (storage_accepts w) (toasts w) (console w)
          (network w).
Definition set_isLoading (b : bool) (w : World) : World :=
  mkWorld (user w) b (localStorage w) (storage_accepts w) (toasts w) (console w)
          (network w).
Definition set_localStorage (ls : gmap string string) (w : World) : World :=
  mkWorld (user w) (isLoading w) ls (storage_accepts w) (toasts w) (console w) (network w).
Definition set_storage_accepts (accepts : string -> string -> bool) (w : World) : World :=
  mkWorld (user w) (isLoading w) (localStorage w) accepts (toasts w) (console w) (network w).
Definition add_toast (t : Toast) (w : World) : World :=
  mkWorld (user w) (isLoading w) (localStorage w) (storage_accepts w) (toasts w ++ [t])
          (console w) (network w).
Definition add_console (line : string) (w : World) : World :=
  mkWorld (user w) (isLoading w) (localStorage w) (storage_accepts w) (toasts w)
          (console w ++ [line]) (network w).
Definition add_request (r : Supabase.request) (w : World) : World :=
  mkWorld (user w) (isLoading w) (localStorage w) (storage_accepts w) (toasts w) (console w)
          (network w ++ [r]).

(** How a block ends: normally with a value, or by throwing. *)
Inductive Completion (A : Type) : Type :=
| Normal (a : A)
| Throw (e : exn).
Arguments Normal {A} a.
Arguments Throw {A} e.

(** A command reads the backend, transforms the world and completes. *)
Definition M (A : Type) : Type :=
  Supabase.Backend -> World -> Completion A * World.

Definition ret {A} (a : A) : M A := fun _ w => (Normal a, w).

Definition bind {A B} (m : M A) (k : A -> M B) : M B :=
  fun be w =>
    match m be w with
    | (Normal a, w') => k a be w'
    | (Throw e, w') => (Throw e, w')
    end.

Definition throw {A} (e : exn) : M A := fun _ w => (Throw e, w).

Notation "x <- m ;; k" := (bind m (fun x => k))
  (at level 100, m at next level, right associativity).
Notation "m ;; k" := (bind m (fun _ => k))
  (at level 100, right associativity).

(** [try { body } catch (error) { handler error }] *)
Definition try_catch {A} (body : M A) (handler : exn -> M A) : M A :=
  fun be w =>
    match body be w with
    | (Normal a, w') => (Normal a, w')
    | (Throw e, w') => handler e be w'
    end.

(** [try { body } finally { finalizer }]: the finalizer runs however the
    body completes, and the body's completion stands unless the finalizer
    itself throws. *)
Definition try_finally {A} (body : M A) (finalizer : M unit) : M A :=
  fun be w =>
    match body be w with
    | (c, w') =>
        match finalizer be w' with
        | (Normal _, w'') => (c, w'')
        | (Throw e, w'') => (Throw e, w'')
        end
    end.

Definition try_catch_finally {A} (body : M A) (handler : exn -> M A)
    (finalizer : M unit) : M A :=
  try_finally (try_catch body handler) finalizer.

(** *** The primitives *)

Definition setUser (v : JSON.value) : M unit := fun _ w => (Normal tt, set_user v w).
Definition setIsLoading (b : bool) : M unit := fun _ w => (Normal tt, set_isLoading b w).

Definition localStorage_getItem (key : string) : M (option string) :=
  fun _ w => (Normal (localStorage w !! key), w).
(** [localStorage.setItem(key, val)]: it stores [val], or throws when the
    storage does not take it. *)
Definition localStorage_setItem (key val : string) : M unit :=
  fun _ w =>
    if storage_accepts w key val
    then (Normal tt, set_localStorage (<[key := val]> (localStorage w)) w)
    else (Throw QuotaExceededError, w).
Definition localStorage_removeItem (key : string) : M unit :=
  fun _ w => (Normal tt, set_localStorage (delete key (localStorage w)) w).

Definition toast_error (msg : string) : M unit :=
  fun _ w => (Normal tt, add_toast (toast_error_msg msg) w).
Definition toast_success (msg : string) : M unit :=
  fun _ w => (Normal tt, add_toast (toast_success_msg msg) w).
Definition console_error (label : string) : M unit :=
  fun _ w => (Normal tt, add_console label w).

Definition JSON_parse (text : string) : M JSON.value :=
  match JSON.parse text with
  | JSON.Ok v => ret v
  | _ => throw (SyntaxError "JSON.parse")
  end.

(** [await request]: the request goes out; a rejected promise throws at
    the [await]. *)
Definition await {A} (r : Supabase.request)
    (settle : Supabase.Backend -> Supabase.Awaited A) : M A :=
  fun be w =>
    match settle be with
    | Supabase.Fulfilled a => (Normal a, add_request r w)
    | Supabase.Rejected reason => (Throw (PromiseRejection reason), add_request r w)
    end.

Definition select_all_single (u : string) : M (Supabase.Response Supabase.Row.t) :=
  await (Supabase.Select "*" u) (fun be => Supabase.select_all be u).
Definition select_username_single (u : string) : M (Supabase.Response string) :=
  await (Supabase.Select "username" u) (fun be => Supabase.select_username be u).
Definition insert_users (values : UserData.t) (returning : bool)
  : M (Supabase.Response Supabase.Row.t) :=
  await (Supabase.Insert values returning) (fun be => Supabase.insert be values returning).

(** [row.password], where [row] may be [null]: reading a property of
    [null] throws. *)
Definition read_password (users : option Supabase.Row.t) : M string :=
  match users with
  | Some row => ret (Supabase.Row.password row)
  | None => throw (TypeError "Cannot read properties of null (reading 'password')")
  end.

(** Truthiness of what [localStorage.getItem] returns: [null] and the
    empty string are falsy. *)
Definition truthy_item (item : option string) : bool :=
  match item with
  | Some s => negb (String.eqb s "")
  | None => false
  end.

(** [useState<User | null>(null)], [useState(true)]: the state
    [AuthProvider] starts a page load with, over whatever the browser's
    local storage holds and takes. *)
Definition AuthProvider_init (storage : gmap string string)
    (accepts : string -> string -> bool) : World :=
  mkWorld JSON.JNull true storage accepts [] [] [].

(** A storage with room for everything, and one with room for nothing. *)
Definition roomy (key val : string) : bool := true.
Definition full (key val : string) : bool := false.

(* ===================================================================== *)
(** ** [src/context/AuthContext.tsx]                                      *)
(* ===================================================================== *)

Module AuthContext.
Import Supabase.

(** The [useEffect(..., [])] body: restore the saved session. *)
Definition AuthProvider_effect : M unit :=
  savedUser <- localStorage_getItem "tobaku_user" ;;
  (if truthy_item savedUser then
     try_catch
       (parsedUser <- JSON_parse (default "" savedUser) ;;
        setUser parsedUser)
       (fun error =>
          console_error "Error parsing saved user:" ;;
          localStorage_removeItem "tobaku_user")
   else ret tt) ;;
  setIsLoading false.

Definition login (username password : string) : M bool :=
  try_catch_finally
    (setIsLoading true ;;
     response <- select_all_single username ;;
     let users := data response in
     match error response with
     | Some error =>
         (if String.eqb (code error) "PGRST116"
          then toast_error "Username tidak ditemukan"
          else (console_error "Login error:" ;;
                toast_error "Terjadi kesalahan saat login")) ;;
         ret false
     | None =>
         (* Simple password check *)
         stored <- read_password users ;;
         let isValidPassword := String.eqb stored password in
         match users, isValidPassword with
         | Some users, true =>
             let userData :=
               User.mk (Row.id users) (Row.name users) (Row.username users)
                       (Row.role users) (Row.created_at users) in
             setUser (User.to_value userData) ;;
             localStorage_setItem "tobaku_user" (JSON.stringify (User.to_value userData)) ;;
             toast_success ("Selamat datang, " +:+ User.name userData +:+ "!") ;;
             ret true
         | _, _ =>
             toast_error "Password salah" ;;
             ret false
         end
     end)
    (fun error =>
       console_error "Login error:" ;;
       toast_error "Terjadi kesalahan saat login" ;;
       ret false)
    (setIsLoading false).

Definition signup (userData : UserData.t) : M bool :=
  try_catch_finally
    (setIsLoading true ;;
     (* Check if username already exists *)
     response <- select_username_single (UserData.username userData) ;;
     match data response with
     | Some existingUser =>
         toast_error "Username sudah digunakan" ;;
         ret false
     | None =>
         response <- insert_users userData false ;;
         match error response with
         | Some insertError =>
             console_error "Signup error:" ;;
             toast_error "Gagal membuat akun" ;;
             ret false
         | None =>
             toast_success "Akun berhasil dibuat! Silakan login." ;;
             ret true
         end
     end)
    (fun error =>
       console_error "Signup error:" ;;
       toast_error "Terjadi kesalahan saat membuat akun" ;;
       ret false)
    (setIsLoading false).

Definition logout : M unit :=
  setUser JSON.JNull ;;
  localStorage_removeItem "tobaku_user".

End AuthContext.

(* ===================================================================== *)
(** ** [unnamed/part_000]: the variant copy of the same file              *)
(* ===================================================================== *)

Module Part000.
Import Supabase.

Definition AuthProvider_effect : M unit :=
  savedUser <- localStorage_getItem "tobaku_user" ;;
  (if truthy_item savedUser then
     try_catch
       (parsedUser <- JSON_parse (default "" savedUser) ;;
        setUser parsedUser)
       (fun error =>
          console_error "Error parsing saved user:" ;;
          localStorage_removeItem "tobaku_user")
   else ret tt) ;;
  setIsLoading false.

Definition login (username password : string) : M bool :=
  try_catch_finally
    (setIsLoading true ;;
     response <- select_all_single username ;;
     let users := data response in
     match error response with
     | Some error =>
         console_error "Login error:" ;;
         ret false
     | None =>
         (* Simple password check: the two demo accounts *)
         let isValidPassword :=
           (String.eqb username "admin" && String.eqb password "admin123")
           || (String.eqb username "staff" && String.eqb password "staff123") in
         match users, isValidPassword with
         | Some users, true =>
             let userData :=
               User.mk (Row.id users) (Row.name users) (Row.username users)
                       (Row.role users) (Row.created_at users) in
             setUser (User.to_value userData) ;;
             localStorage_setItem "tobaku_user" (JSON.stringify (User.to_value userData)) ;;
             ret true
         | _, _ => ret false
         end
     end)
    (fun error =>
       console_error "Login error:" ;;
       toast_error "Terjadi kesalahan saat login" ;;
       ret false)
    (setIsLoading false).

Definition signup (userData : UserData.t) : M bool :=
  try_catch_finally
    (setIsLoading true ;;
     response <- select_username_single (UserData.username userData) ;;
     match data response with
     | Some existingUser =>
         toast_error "Username sudah digunakan" ;;
         ret false
     | None =>
         response <- insert_users userData true ;;
         match error response with
         | Some insertError =>
             console_error "Signup error:" ;;
             toast_error "Gagal membuat akun" ;;
             ret false
         | None =>
             toast_success "Akun berhasil dibuat! Silakan login." ;;
             ret true
         end
     end)
    (fun error =>
       console_error "Signup error:" ;;
       toast_error "Terjadi kesalahan saat membuat akun" ;;
       ret false)
    (setIsLoading false).

Definition logout : M unit :=
  setUser JSON.JNull ;;
  localStorage_removeItem "tobaku_user".

End Part000.

(* ===================================================================== *)
(** ** Example backends                                                   *)
(* ===================================================================== *)

(** A store that answers from a fixed table, the way PostgREST does:
    [.single()] yields the row when exactly one matches and the error
    [PGRST116] otherwise. *)
Module Table.
Import Supabase.

Definition matching (u : string) (table : list Row.t) : list Row.t :=
  filter (fun r => String.eqb (Row.username r) u) table.

Definition single {A} (rows : list A) : Response A :=
  match rows with
  | [r] => mkResponse (Some r) None
  | _ => mkResponse None
           (Some (mkError "PGRST116" "JSON object requested, multiple (or no) rows returned"))
  end.

Definition created (values : UserData.t) : Row.t :=
  Row.mk "generated-id" (UserData.name values) (UserData.username values)
         (UserData.Role_to_string (UserData.role values)) (UserData.password values)
         "generated-timestamp".

Definition backend (table : list Row.t) : Backend :=
  mkBackend
    (fun u => Fulfilled (single (matching u table)))
    (fun u => Fulfilled (single (map Row.username (matching u table))))
    (fun values returning =>
       Fulfilled (mkResponse (if returning then Some (created values) else None) None)).

(** No connection: every request is rejected. *)
Definition offline : Backend :=
  mkBackend (fun _ => Rejected "Failed to fetch")
            (fun _ => Rejected "Failed to fetch")
            (fun _ _ => Rejected "Failed to fetch").

(** A store whose lookups fail with a server error and whose inserts
    are refused. *)
Definition failing : Backend :=
  mkBackend (fun _ => Fulfilled (mkResponse None (Some (mkError "500" "internal error"))))
            (fun _ => Fulfilled (mkResponse None (Some (mkError "500" "internal error"))))
            (fun _ _ => Fulfilled (mkResponse None (Some (mkError "23505" "duplicate key")))).

Definition admin_row : Row.t :=
  Row.mk "1" "Administrator" "admin" "admin" "rahasia" "2024-01-01T00:00:00Z".
Definition kasir_row : Row.t :=
  Row.mk "7" "Kasir Satu" "kasir1" "staff" "kasir-pw" "2024-02-01T00:00:00Z".
(** A row that [signup] accepts and writes: nothing asks for a
    non-empty username. *)
Definition blank_row : Row.t := created (UserData.mk "Tanpa Nama" "" "" UserData.staff).
End Table.

(* ===================================================================== *)
(** ** Session invariant and reachable states                             *)
(* ===================================================================== *)

Definition string_member (v : JSON.value) (k : string) : option string :=
  match JSON.get v k with
  | Some (JSON.JStr s) => Some s
  | _ => None
  end.

(** A fully-populated User: the five fields are there, the username is
    not empty and the role is one of the two of the enumeration. *)
Definition populated_user (v : JSON.value) : bool :=
  match string_member v "id", string_member v "name", string_member v "username",
        string_member v "role", string_member v "created_at" with
  | Some _, Some _, Some u, Some r, Some _ =>
      negb (String.eqb u "") && (String.eqb r "admin" || String.eqb r "staff")
  | _, _, _, _, _ => false
  end.

(** The invariant of the spec's data model on [currentUser]. *)
Definition user_invariant (v : JSON.value) : bool :=
  match v with
  | JSON.JNull => true
  | _ => populated_user v
  end.

(** What the restore effect would make of the stored snapshot. *)
Definition snapshot_invariant (storage : gmap string string) : bool :=
  match storage !! "tobaku_user" with
  | None => true
  | Some text =>
      if String.eqb text "" then true
      else match JSON.parse text with
           | JSON.Ok v => user_invariant v
           | _ => true
           end
  end.

(** A row that satisfies the data model. *)
Definition row_ok (r : Supabase.Row.t) : bool :=
  negb (String.eqb (Supabase.Row.username r) "")
  && (String.eqb (Supabase.Row.role r) "admin" || String.eqb (Supabase.Row.role r) "staff").

(** The lookup that [login username _] triggers on [be] does not return
    a row that breaks the data model. *)
Definition lookup_ok (be : Supabase.Backend) (username : string) : bool :=
  match Supabase.select_all be username with
  | Supabase.Fulfilled resp =>
      match Supabase.data resp with
      | Some row => row_ok row
      | None => true
      end
  | Supabase.Rejected _ => true
  end.

(** What is assumed when a [login] starts, of the backend [be] and of the
    world [w] it starts in: the store keeps to the data model; nothing at
    all. *)
Definition store_contract (be : Supabase.Backend) (w : World) (username : string) : Prop :=
  lookup_ok be username = true.
Definition no_contract (be : Supabase.Backend) (w : World) (username : string) : Prop := True.

(** The session states the component can be in: a page load runs the
    restore effect on the initial state, over the storage the browser
    has; after that come [login], [signup] and [logout] calls, each
    against whatever the backend answers then, and further page loads over
    the storage left behind.  In between, the room the browser's storage
    has may change.  [P] is what is assumed at each [login]. *)
Inductive reachable (P : Supabase.Backend -> World -> string -> Prop)
    (storage : gmap string string) : World -> Prop :=
| reach_mount be accepts :
    reachable P storage
      (snd (AuthContext.AuthProvider_effect be (AuthProvider_init storage accepts)))
| reach_login be w username password :
    reachable P storage w -> P be w username ->
    reachable P storage (snd (AuthContext.login username password be w))
| reach_signup be w userData :
    reachable P storage w ->
    reachable P storage (snd (AuthContext.signup userData be w))
| reach_logout be w :
    reachable P storage w ->
    reachable P storage (snd (AuthContext.logout be w))
| reach_reload be w accepts :
    reachable P storage w ->
    reachable P storage
      (snd (AuthContext.AuthProvider_effect be (AuthProvider_init (localStorage w) accepts)))
| reach_quota w accepts :
    reachable P storage w ->
    reachable P storage (set_storage_accepts accepts w).

(** The check of [login] in the variant copy: the pair supplied is one of
    the two demo accounts. *)
Definition demo_account (username password : string) : bool :=
  (String.eqb username "admin" && String.eqb password "admin123")
  || (String.eqb username "staff" && String.eqb password "staff123").

(** [row] with another stored password. *)
Definition with_password (pw : string) (row : Supabase.Row.t) : Supabase.Row.t :=
  Supabase.Row.mk (Supabase.Row.id row) (Supabase.Row.name row) (Supabase.Row.username row)
                  (Supabase.Row.role row) pw (Supabase.Row.created_at row).

(** The User that [login] builds from a row. *)
Definition user_of_row (row : Supabase.Row.t) : User.t :=
  User.mk (Supabase.Row.id row) (Supabase.Row.name row) (Supabase.Row.username row)
          (Supabase.Row.role row) (Supabase.Row.created_at row).

(** A session that is already there, for the examples. *)
Definition kasir_session : World :=
  mkWorld (User.to_value (user_of_row Table.kasir_row)) false
          {["tobaku_user" := JSON.stringify (User.to_value (user_of_row Table.kasir_row))]}
          roomy [] [] [].

(** The same session in a browser whose storage is full. *)
Definition kasir_session_full : World :=
  mkWorld (User.to_value (user_of_row Table.kasir_row)) false
          {["tobaku_user" := JSON.stringify (User.to_value (user_of_row Table.kasir_row))]}
          full [] [] [].

(** The text [login] writes for a row: the serialisation of the object
    literal of its five fields. *)
Definition snapshot_text (row : Supabase.Row.t) : string :=
  JSON.stringify (User.to_value (user_of_row row)).

(** Assumed of a [login] that starts on [be] in [w]: if the lookup returns
    a row, the storage takes the snapshot of that row. *)
Definition snapshot_fits (be : Supabase.Backend) (w : World) (username : string) : Prop :=
  forall row,
    Supabase.select_all be username
    = Supabase.Fulfilled (Supabase.mkResponse (Some row) None) ->
    storage_accepts w "tobaku_user" (snapshot_text row) = true.

(** The two versions of the file, for statements about both. *)
Inductive source : Type := AuthContext_tsx | part_000.

Definition effect_in (f : source) : M unit :=
  match f with
  | AuthContext_tsx => AuthContext.AuthProvider_effect
  | part_000 => Part000.AuthProvider_effect
  end.
Definition login_in (f : source) : string -> string -> M bool :=
  match f with
  | AuthContext_tsx => AuthContext.login
  | part_000 => Part000.login
  end.
Definition signup_in (f : source) : UserData.t -> M bool :=
  match f with
  | AuthContext_tsx => AuthContext.signup
  | part_000 => Part000.signup
  end.
Definition logout_in (f : source) : M unit :=
  match f with
  | AuthContext_tsx => AuthContext.logout
  | part_000 => Part000.logout
  end.

(** Whether the insert of [signup] asks for the created row back
    ([.select().single()] after [.insert(...)]): the variant copy does. *)
Definition insert_returning (f : source) : bool :=
  match f with
  | AuthContext_tsx => false
  | part_000 => true
  end.

(** What a page load over [storage] makes [currentUser]: the value the
    text under ["tobaku_user"] parses to, and null when there is no text,
    an empty one or one that does not parse. *)
Definition restored (storage : gmap string string) : JSON.value :=
  match storage !! "tobaku_user" with
  | None => JSON.JNull
  | Some text =>
      if String.eqb text "" then JSON.JNull
      else match JSON.parse text with
           | JSON.Ok v => v
           | _ => JSON.JNull
           end
  end.

(** A parser result that made progress on [s] and did not run out of
    fuel. *)
Definition advances {A} (s : string) (res : JSON.result (A * string)) : Prop :=
  match res with
  | JSON.Ok (_, r) => String.length r < String.length s
  | JSON.SyntaxError => True
  | JSON.OutOfFuel => False
  end.

(* ===================================================================== *)
(** ** Facts about [JSON]                                                 *)
(* ===================================================================== *)

Section JSONFacts.
Import JSON.

Lemma append_cons (c : ascii) (a b : string) : String c a +:+ b = String c (a +:+ b).
Proof. reflexivity. Qed.

Lemma append_nil_l (b : string) : "" +:+ b = b.
Proof. reflexivity. Qed.

Lemma append_assoc (a b c : string) : (a +:+ b) +:+ c = a +:+ (b +:+ c).
Proof.
  induction a as [|x a IH]; [reflexivity|].
  rewrite !append_cons. now rewrite IH.
Qed.

Lemma length_append (a b : string) :
  String.length (a +:+ b) = String.length a + String.length b.
Proof.
  induction a as [|x a IH]; [reflexivity|].
  rewrite append_cons. cbn [String.length]. now rewrite IH.
Qed.

(** *** Reading back what [quote] wrote *)

Lemma parse_string_escape_char (c : ascii) (s : string) :
  parse_string (escape_char c +:+ s) = prepend (str1 c) (parse_string s).
Proof. destruct c as [[] [] [] [] [] [] [] []]; reflexivity. Qed.

Lemma parse_string_escape (s rest : string) :
  parse_string (escape s +:+ String dquote rest) = Ok (s, rest).
Proof.
  induction s as [|c s IH]; [reflexivity|].
  cbn [escape]. rewrite append_assoc, parse_string_escape_char, IH. reflexivity.
Qed.

Lemma parse_value_quote (fuel : nat) (s rest : string) :
  parse_value (S fuel) (String dquote (escape s +:+ String dquote rest)) = Ok (JStr s, rest).
Proof. simpl. now rewrite parse_string_escape. Qed.

Lemma parse_members_comma (fuel : nat) (acc : list (string * value)) (k v rest : string) :
  parse_members (S (S fuel)) acc
    (String dquote (escape k +:+ String dquote (String ":"
       (String dquote (escape v +:+ String dquote (String "," rest))))))
  = parse_members (S fuel) ((k, JStr v) :: acc) rest.
Proof.
  simpl. rewrite parse_string_escape. simpl. rewrite parse_string_escape. reflexivity.
Qed.

Lemma parse_members_close (fuel : nat) (acc : list (string * value)) (k v rest : string) :
  parse_members (S (S fuel)) acc
    (String dquote (escape k +:+ String dquote (String ":"
       (String dquote (escape v +:+ String dquote (String "}" rest))))))
  = Ok (JObj (rev ((k, JStr v) :: acc)), rest).
Proof.
  simpl. rewrite parse_string_escape. simpl. rewrite parse_string_escape. reflexivity.
Qed.

Lemma parse_value_object (fuel : nat) (r : string) :
  parse_value (S fuel) (String "{" (String dquote r))
  = parse_members fuel [] (String dquote r).
Proof. reflexivity. Qed.

Ltac normalise_text :=
  unfold quote; repeat (rewrite ?append_assoc, ?append_cons, ?append_nil_l).

Lemma parse_value_user (u : User.t) (fuel : nat) :
  parse_value (S (S (S (S (S (S (S fuel))))))) (stringify (User.to_value u))
  = Ok (User.to_value u, "").
Proof.
  destruct u as [i n un r c].
  cbn [stringify User.to_value map join_comma fold_left fst snd
       User.id User.name User.username User.role User.created_at].
  normalise_text.
  rewrite parse_value_object, !parse_members_comma, parse_members_close.
  reflexivity.
Qed.

Lemma stringify_user_length (u : User.t) :
  3 <= String.length (stringify (User.to_value u)).
Proof.
  destruct u as [i n un r c].
  cbn [stringify User.to_value map join_comma fold_left fst snd].
  normalise_text. cbn [String.length]. rewrite length_append. cbn [String.length]. lia.
Qed.

Lemma stringify_user_nonempty (u : User.t) :
  String.eqb (stringify (User.to_value u)) "" = false.
Proof. reflexivity. Qed.

(** Serialise-then-parse gives the User back. *)
Lemma parse_stringify_user (u : User.t) :
  parse (stringify (User.to_value u)) = Ok (User.to_value u).
Proof.
  unfold parse.
  pose proof (stringify_user_length u) as Hlen.
  assert (Hfuel : exists m, fuel_for (stringify (User.to_value u))
                            = S (S (S (S (S (S (S m))))))).
  { exists (fuel_for (stringify (User.to_value u)) - 7). unfold fuel_for. lia. }
  destruct Hfuel as [m ->].
  rewrite parse_value_user. reflexivity.
Qed.

(** *** The fuel given to [parse_value] is never used up *)

Lemma skip_ws_length (s : string) : String.length (skip_ws s) <= String.length s.
Proof.
  induction s as [|c s IH]; simpl; [lia|].
  destruct (is_ws c); simpl; lia.
Qed.

Lemma strip_prefix_length (p s r : string) :
  strip_prefix p s = Some r -> String.length s = String.length p + String.length r.
Proof.
  revert s; induction p as [|a p IH]; intros s H; simpl in *.
  - now inversion H.
  - destruct s as [|b s]; [discriminate|].
    destruct (Ascii.eqb a b); [|discriminate].
    simpl. now rewrite (IH _ H).
Qed.

Lemma scan_digits_length (s : string) :
  String.length (snd (scan_digits s)) <= String.length s
  /\ (fst (scan_digits s) <> Nil ->
      String.length (snd (scan_digits s)) < String.length s).
Proof.
  induction s as [|c s [IH1 IH2]]; simpl; [split; [lia|congruence]|].
  destruct (digit c) as [d|]; simpl.
  - destruct (scan_digits s) as [u r]; simpl in *. split; intros; lia.
  - split; [lia|congruence].
Qed.

Lemma scan_digits1_length (s : string) (u : uint) (r : string) :
  scan_digits1 s = Some (u, r) -> String.length r < String.length s.
Proof.
  unfold scan_digits1. intros H.
  destruct (scan_digits_length s) as [_ Hlt].
  destruct (scan_digits s) as [u' r']; simpl in *.
  destruct u'; inversion H; subst; apply Hlt; discriminate.
Qed.

Ltac split_scan :=
  repeat match goal with
  | H : context [match strip_prefix ?p ?s with _ => _ end] |- _ =>
      let E := fresh "E" in
      destruct (strip_prefix p s) eqn:E;
      [apply strip_prefix_length in E; cbn [String.length] in E|]
  | H : context [match scan_digits1 ?s with _ => _ end] |- _ =>
      let E := fresh "E" in
      destruct (scan_digits1 s) as [[? ?]|] eqn:E;
      [apply scan_digits1_length in E|]
  | H : Some _ = Some _ |- _ => inversion H; clear H; subst
  | H : None = Some _ |- _ => discriminate H
  | H : scan_digits1 _ = Some _ |- _ => apply scan_digits1_length in H
  end.

Lemma scan_int_length (s : string) (u : uint) (r : string) :
  scan_int s = Some (u, r) -> String.length r < String.length s.
Proof. unfold scan_int. intros H. split_scan; lia. Qed.

Lemma scan_frac_length (s : string) (f : uint) (r : string) :
  scan_frac s = Some (f, r) -> String.length r <= String.length s.
Proof. unfold scan_frac. intros H. split_scan; lia. Qed.

Lemma scan_exp_length (s : string) (e : option int) (r : string) :
  scan_exp s = Some (e, r) -> String.length r <= String.length s.
Proof.
  unfold scan_exp, scan_exp_digits, default. intros H.
  split_scan; unfold id in *; lia.
Qed.

Lemma parse_number_advances (s : string) : advances s (parse_number s).
Proof.
  unfold parse_number.
  assert (Hs : exists neg s1,
             match strip_prefix "-" s with Some r => (true, r) | None => (false, s) end
             = (neg, s1) /\ String.length s1 <= String.length s).
  { destruct (strip_prefix "-" s) as [r|] eqn:E; eexists _, _; (split; [reflexivity|]).
    - apply strip_prefix_length in E. lia.
    - lia. }
  destruct Hs as (neg & s1 & -> & Hs1).
  destruct (scan_int s1) as [[u s2]|] eqn:Hi; [|exact I].
  apply scan_int_length in Hi.
  destruct (scan_frac s2) as [[f s3]|] eqn:Hf; [|exact I].
  apply scan_frac_length in Hf.
  destruct (scan_exp s3) as [[[e|] s4]|] eqn:He; [| |exact I];
    apply scan_exp_length in He; simpl; lia.
Qed.

Lemma advances_weaken {A} (s s' : string) (res : result (A * string)) :
  advances s' res -> String.length s' <= String.length s -> advances s res.
Proof. destruct res as [[x r]| |]; simpl; intros; try lia; auto. Qed.

Lemma advances_prepend (s s' p : string) (res : result (string * string)) :
  advances s' res -> String.length s' <= String.length s -> advances s (prepend p res).
Proof. destruct res as [[x r]| |]; simpl; intros; try lia; auto. Qed.

Lemma parse_string_advances_bounded (n : nat) (s : string) :
  String.length s <= n -> advances s (parse_string s).
Proof.
  revert s. induction n as [|n IH]; intros s Hn.
  - destruct s; [exact I | simpl in Hn; lia].
  - destruct s as [|c s]; [exact I|].
    cbn [parse_string]. cbn [String.length] in Hn.
    assert (Hrec : forall s' p, String.length s' <= String.length s ->
                            advances (String c s) (prepend p (parse_string s'))).
    { intros s' p Hs'. apply advances_prepend with (s' := s').
      - apply IH. lia.
      - cbn [String.length]. lia. }
    repeat match goal with
    | |- advances _ (prepend _ (parse_string _)) => apply Hrec; cbn [String.length]; lia
    | |- advances _ SyntaxError => exact I
    | |- advances _ (Ok _) => cbn [advances String.length]; lia
    | |- advances _ (if ?b then _ else _) => destruct b
    | |- advances _ (match ?x with _ => _ end) => destruct x
    end.
Qed.

Lemma parse_string_advances (s : string) : advances s (parse_string s).
Proof. apply (parse_string_advances_bounded (String.length s)). lia. Qed.

Ltac note_ws :=
  repeat match goal with
  | |- context [skip_ws ?x] =>
      lazymatch goal with
      | _ : String.length (skip_ws x) <= String.length x |- _ => fail
      | _ => pose proof (skip_ws_length x)
      end
  | _ : context [skip_ws ?x] |- _ =>
      lazymatch goal with
      | _ : String.length (skip_ws x) <= String.length x |- _ => fail
      | _ => pose proof (skip_ws_length x)
      end
  end.

Ltac strip_cases :=
  repeat (note_ws;
          match goal with
          | |- context [match strip_prefix ?p ?s with _ => _ end] =>
              let E := fresh "E" in
              destruct (strip_prefix p s) eqn:E;
              [apply strip_prefix_length in E; cbn [String.length str1] in E|]
          end).

Ltac solve_advances IH :=
  note_ws;
  first
    [ exact I
    | cbn [advances]; lia
    | match goal with
      | |- advances _ (parse_elements _ _ ?x) =>
          apply advances_weaken with (s' := x); [apply IH; lia | lia]
      | |- advances _ (parse_members _ _ ?x) =>
          apply advances_weaken with (s' := x); [apply IH; lia | lia]
      end ].

(** With more than twice the length of the text as fuel, the three
    mutually recursive parsers consume input and never report
    [OutOfFuel]. *)
Lemma parse_advances (fuel : nat) :
  forall s : string,
    (2 * String.length s < fuel -> advances s (parse_value fuel s))
    /\ (forall acc, 2 * String.length s + 1 < fuel ->
                    advances s (parse_elements fuel acc s))
    /\ (forall acc, 2 * String.length s + 1 < fuel ->
                    advances s (parse_members fuel acc s)).
Proof.
  induction fuel as [|fuel IH]; intros s.
  - repeat split; intros; lia.
  - split; [|split].
    + intros Hfuel. cbn [parse_value].
      strip_cases; try solve_advances IH.
      * pose proof (parse_string_advances s0) as Hs.
        destruct (parse_string s0) as [[str r']| |]; cbn [advances] in *; try lia; auto.
      * pose proof (parse_number_advances (skip_ws s)) as Hn.
        destruct (parse_number (skip_ws s)) as [[d r]| |]; cbn [advances] in *;
          try lia; auto.
    + intros acc Hfuel. cbn [parse_elements].
      destruct (IH s) as [Hv _]. specialize (Hv ltac:(lia)).
      destruct (parse_value fuel s) as [[v r]| |]; cbn [advances] in *; auto.
      strip_cases; solve_advances IH.
    + intros acc Hfuel. cbn [parse_members].
      strip_cases; try exact I.
      pose proof (parse_string_advances s0) as Hs.
      destruct (parse_string s0) as [[k r1]| |]; cbn [advances] in *; auto.
      strip_cases; try exact I.
      destruct (IH s1) as [Hv _]. specialize (Hv ltac:(lia)).
      destruct (parse_value fuel s1) as [[v r3]| |]; cbn [advances] in *; auto.
      strip_cases; solve_advances IH.
Qed.

(** [JSON.parse] either yields a value or reports a syntax error. *)
Lemma parse_never_out_of_fuel (text : string) : parse text <> OutOfFuel.
Proof.
  unfold parse.
  destruct (parse_advances (fuel_for text) text) as [Hv _].
  specialize (Hv ltac:(unfold fuel_for; lia)).
  destruct (parse_value (fuel_for text) text) as [[v r]| |]; cbn [advances] in Hv.
  - destruct (skip_ws r); discriminate.
  - discriminate.
  - contradiction.
Qed.

Lemma parse_cases (text : string) :
  (exists v, parse text = Ok v) \/ parse text = SyntaxError.
Proof.
  pose proof (parse_never_out_of_fuel text) as H.
  destruct (parse text) as [v| |]; [left; eauto | now right | contradiction].
Qed.

End JSONFacts.

(* ===================================================================== *)
(** ** Facts about the component                                          *)
(* ===================================================================== *)

Section ComponentFacts.
Import Supabase.

Ltac unfold_commands :=
  unfold AuthContext.login, AuthContext.signup, AuthContext.logout,
    AuthContext.AuthProvider_effect,
    Part000.login, Part000.signup, Part000.logout, Part000.AuthProvider_effect,
    try_catch_finally, try_finally, try_catch, bind, ret, throw,
    setUser, setIsLoading, localStorage_getItem, localStorage_setItem,
    localStorage_removeItem, toast_error, toast_success, console_error,
    select_all_single, select_username_single, insert_users, await, read_password.

(** Every way the lookup of [login] can settle. *)
Ltac lookup_cases be u :=
  destruct (select_all be u) as [[[?row|] [?err|]]|?reason] eqn:?Hlookup; cbn.

(** What [login] of [AuthContext.tsx] does, by cases.  On a row whose
    stored password is the one supplied it sets the User made of that row
    and then writes the snapshot: it resolves [true] when the storage
    takes the text, and [false], with [currentUser] already set and
    nothing stored, when [setItem] throws.  In every other case it
    resolves [false] and leaves both alone. *)
Lemma login_cases (be : Backend) (w : World) (username password : string) :
  let r := AuthContext.login username password be w in
  isLoading (snd r) = false
  /\ ((fst r = Normal true
       /\ exists row,
           select_all be username = Fulfilled (mkResponse (Some row) None)
           /\ Row.password row = password
           /\ user (snd r) = User.to_value (user_of_row row)
           /\ localStorage (snd r)
              = <["tobaku_user" := snapshot_text row]> (localStorage w)
           /\ storage_accepts w "tobaku_user" (snapshot_text row) = true)
      \/ (fst r = Normal false
          /\ exists row,
              select_all be username = Fulfilled (mkResponse (Some row) None)
              /\ Row.password row = password
              /\ user (snd r) = User.to_value (user_of_row row)
              /\ localStorage (snd r) = localStorage w
              /\ storage_accepts w "tobaku_user" (snapshot_text row) = false)
      \/ (fst r = Normal false
          /\ user (snd r) = user w
          /\ localStorage (snd r) = localStorage w
          /\ ~ exists row,
                select_all be username = Fulfilled (mkResponse (Some row) None)
                /\ Row.password row = password)).
Proof.
  unfold_commands. cbn.
  lookup_cases be username.
  - destruct (String.eqb (code err) "PGRST116"); cbn;
      (split; [reflexivity|right; right; repeat split; try reflexivity]);
      intros (row' & [=] & _).
  - destruct (String.eqb_spec (Row.password row) password) as [Heq|Hne]; cbn.
    + match goal with
      | |- context [storage_accepts ?w0 ?k ?t] => destruct (storage_accepts w0 k t) eqn:Hroom
      end; cbn.
      * split; [reflexivity|left]. split; [reflexivity|]. exists row.
        repeat split; first [assumption | reflexivity].
      * split; [reflexivity|right; left]. split; [reflexivity|]. exists row.
        repeat split; first [assumption | reflexivity].
    + split; [reflexivity|right; right]. repeat split; try reflexivity.
      intros (row' & [= <-] & Heq). contradiction.
  - destruct (String.eqb (code err) "PGRST116"); cbn;
      (split; [reflexivity|right; right; repeat split; try reflexivity]);
      intros (row' & [=] & _).
  - split; [reflexivity|right; right]. repeat split; try reflexivity.
    intros (row' & [=] & _).
  - split; [reflexivity|right; right]. repeat split; try reflexivity.
    intros (row' & [=] & _).
Qed.

(** The same for the variant copy: the pair supplied must be one of the two
    demo accounts, and the row must be there. *)
Lemma login_cases_part_000 (be : Backend) (w : World) (username password : string) :
  let r := Part000.login username password be w in
  isLoading (snd r) = false
  /\ ((fst r = Normal true
       /\ demo_account username password = true
       /\ exists row,
           select_all be username = Fulfilled (mkResponse (Some row) None)
           /\ user (snd r) = User.to_value (user_of_row row)
           /\ localStorage (snd r)
              = <["tobaku_user" := snapshot_text row]> (localStorage w)
           /\ storage_accepts w "tobaku_user" (snapshot_text row) = true)
      \/ (fst r = Normal false
          /\ demo_account username password = true
          /\ exists row,
              select_all be username = Fulfilled (mkResponse (Some row) None)
              /\ user (snd r) = User.to_value (user_of_row row)
              /\ localStorage (snd r) = localStorage w
              /\ storage_accepts w "tobaku_user" (snapshot_text row) = false)
      \/ (fst r = Normal false
          /\ user (snd r) = user w
          /\ localStorage (snd r) = localStorage w
          /\ ~ (demo_account username password = true
                /\ exists row,
                    select_all be username = Fulfilled (mkResponse (Some row) None)))).
Proof.
  unfold_commands. cbn. fold (demo_account username password).
  lookup_cases be username;
    try (split; [reflexivity|right; right; repeat split; try reflexivity];
         intros (_ & row' & [=])).
  destruct (demo_account username password) eqn:Hdemo; cbn.
  - match goal with
    | |- context [storage_accepts ?w0 ?k ?t] => destruct (storage_accepts w0 k t) eqn:Hroom
    end; cbn.
    + split; [reflexivity|left]. split; [reflexivity|]. split; [reflexivity|].
      exists row. repeat split; first [assumption | reflexivity].
    + split; [reflexivity|right; left]. split; [reflexivity|]. split; [reflexivity|].
      exists row. repeat split; first [assumption | reflexivity].
  - split; [reflexivity|right; right]. repeat split; try reflexivity.
    intros ([=] & _).
Qed.


(** [signup], in either version: the session is left alone, and a found
    username stops it before any insert goes out. *)
Lemma signup_cases (f : source) (be : Backend) (w : World) (userData : UserData.t) :
  let r := signup_in f userData be w in
  isLoading (snd r) = false
  /\ user (snd r) = user w
  /\ localStorage (snd r) = localStorage w
  /\ (fst r = Normal true \/ fst r = Normal false)
  /\ (forall resp existing,
         select_username be (UserData.username userData) = Fulfilled resp ->
         data resp = Some existing ->
         fst r = Normal false
         /\ network (snd r)
            = (network w ++ [Select "username" (UserData.username userData)])%list).
Proof.
  destruct f; unfold signup_in; unfold_commands; cbn;
    (destruct (select_username be (UserData.username userData))
       as [[[existing|] err]|reason] eqn:Hsel; cbn;
     [ | destruct (insert be userData _) as [[newUser [insertError|]]|reason]; cbn | ]);
    (repeat split; auto;
     match goal with
     | H : _ = Fulfilled _ |- _ => first [discriminate H | injection H as <-]
     end;
     try match goal with
     | H : data _ = Some _ |- _ => cbn in H; first [discriminate H | reflexivity]
     end).
Qed.

(** The restore effect, in either version, on any world. *)
Lemma effect_cases (f : source) (be : Backend) (w : World) :
  let r := effect_in f be w in
  fst r = Normal tt
  /\ isLoading (snd r) = false
  /\ match localStorage w !! "tobaku_user" with
     | None => user (snd r) = user w /\ localStorage (snd r) = localStorage w
     | Some text =>
         if String.eqb text "" then
           user (snd r) = user w /\ localStorage (snd r) = localStorage w
         else
           match JSON.parse text with
           | JSON.Ok v => user (snd r) = v /\ localStorage (snd r) = localStorage w
           | _ => user (snd r) = user w
                  /\ localStorage (snd r) = delete "tobaku_user" (localStorage w)
           end
     end.
Proof.
  destruct f; unfold effect_in; unfold_commands; cbn;
    (destruct (localStorage w !! "tobaku_user") as [text|]; cbn; [|auto]);
    (destruct (String.eqb text ""); cbn; [auto|]);
    unfold JSON_parse, ret, throw;
    destruct (JSON.parse text); cbn; auto.
Qed.

(** Whatever the body and the handler do, a [finally { setIsLoading(false) }]
    leaves [isLoading] false, and a handler that does not throw makes the
    whole statement complete normally. *)
Lemma finally_resets_isLoading {A} (body : M A) (handler : exn -> M A)
    (be : Backend) (w : World) :
  isLoading (snd (try_catch_finally body handler (setIsLoading false) be w)) = false.
Proof.
  unfold try_catch_finally, try_finally, try_catch, setIsLoading.
  destruct (body be w) as [[a|e] w1]; cbn.
  - reflexivity.
  - destruct (handler e be w1) as [c w2]; reflexivity.
Qed.


(** *** The session invariant, step by step *)

Lemma user_of_row_invariant (row : Row.t) :
  row_ok row = true -> user_invariant (User.to_value (user_of_row row)) = true.
Proof. intros H. exact H. Qed.

Lemma snapshot_after_login (u : User.t) (storage : gmap string string) :
  user_invariant (User.to_value u) = true ->
  snapshot_invariant (<["tobaku_user" := JSON.stringify (User.to_value u)]> storage) = true.
Proof.
  intros H. unfold snapshot_invariant.
  rewrite lookup_insert_eq, stringify_user_nonempty, parse_stringify_user. exact H.
Qed.

Lemma snapshot_after_logout (storage : gmap string string) :
  snapshot_invariant (delete "tobaku_user" storage) = true.
Proof. unfold snapshot_invariant. now rewrite lookup_delete_eq. Qed.

(** A page load over a well-formed snapshot gives a well-formed session. *)
Lemma effect_keeps_invariant (be : Backend) (storage : gmap string string)
    (accepts : string -> string -> bool) :
  snapshot_invariant storage = true ->
  let w := snd (AuthContext.AuthProvider_effect be (AuthProvider_init storage accepts)) in
  user_invariant (user w) = true /\ snapshot_invariant (localStorage w) = true.
Proof.
  intros Hs. cbv zeta.
  destruct (effect_cases AuthContext_tsx be (AuthProvider_init storage accepts))
    as (_ & _ & H).
  cbn [effect_in localStorage user AuthProvider_init] in H.
  unfold snapshot_invariant in Hs.
  destruct (storage !! "tobaku_user") as [text|] eqn:Hkey.
  - destruct (String.eqb text "") eqn:Hempty.
    + destruct H as [-> ->]. split; [reflexivity|].
      unfold snapshot_invariant. now rewrite Hkey, Hempty.
    + destruct (JSON.parse text) as [v| |] eqn:Hparse.
      * destruct H as [-> ->]. split; [exact Hs|].
        unfold snapshot_invariant. now rewrite Hkey, Hempty, Hparse.
      * destruct H as [-> ->]. split; [reflexivity|apply snapshot_after_logout].
      * destruct H as [-> ->]. split; [reflexivity|apply snapshot_after_logout].
  - destruct H as [-> ->]. split; [reflexivity|].
    unfold snapshot_invariant. now rewrite Hkey.
Qed.

Lemma login_keeps_invariant (be : Backend) (w : World) (username password : string) :
  lookup_ok be username = true ->
  user_invariant (user w) = true -> snapshot_invariant (localStorage w) = true ->
  let w' := snd (AuthContext.login username password be w) in
  user_invariant (user w') = true /\ snapshot_invariant (localStorage w') = true.
Proof.
  intros Hok Hu Hs. cbv zeta.
  destruct (login_cases be w username password) as (_ & [H|[H|H]]).
  - destruct H as (_ & row & Hlookup & _ & -> & -> & _).
    unfold lookup_ok in Hok. rewrite Hlookup in Hok. cbn in Hok.
    split; [now apply user_of_row_invariant|].
    apply snapshot_after_login. now apply user_of_row_invariant.
  - destruct H as (_ & row & Hlookup & _ & -> & -> & _).
    unfold lookup_ok in Hok. rewrite Hlookup in Hok. cbn in Hok.
    split; [now apply user_of_row_invariant | exact Hs].
  - destruct H as (_ & -> & -> & _). now split.
Qed.


(** And of one whose snapshot the storage refuses: [setUser] has run, the
    [catch] block logs and shows the failure toast. *)
Lemma login_on_refused_write
    (be : Backend) (w : World) (username password : string) (row : Row.t) :
  select_all be username = Fulfilled (mkResponse (Some row) None) ->
  Row.password row = password ->
  storage_accepts w "tobaku_user" (snapshot_text row) = false ->
  AuthContext.login username password be w
  = (Normal false,
     set_isLoading false
       (add_toast (toast_error_msg "Terjadi kesalahan saat login")
          (add_console "Login error:"
             (set_user (User.to_value (user_of_row row))
                (add_request (Select "*" username) (set_isLoading true w)))))).
Proof.
  intros Hlookup Hpw Hroom. unfold_commands. cbn. rewrite Hlookup. cbn.
  apply String.eqb_eq in Hpw. rewrite Hpw.
  match goal with
  | |- context [storage_accepts ?w0 ?k ?t] =>
      change (storage_accepts w0 k t) with (storage_accepts w "tobaku_user" (snapshot_text row))
  end.
  rewrite Hroom. reflexivity.
Qed.

(** In the variant copy the row's stored password is not read: with any
    other stored password in the row, [login] runs identically. *)
Lemma login_part_000_password_irrelevant
    (be be' : Backend) (w : World) (username password pw : string) (row : Row.t) :
  select_all be username = Fulfilled (mkResponse (Some row) None) ->
  select_all be' username = Fulfilled (mkResponse (Some (with_password pw row)) None) ->
  Part000.login username password be' w = Part000.login username password be w.
Proof.
  intros Hlookup Hlookup'. unfold_commands. cbn.
  rewrite Hlookup, Hlookup'. cbn.
  destruct ((String.eqb username "admin" && String.eqb password "admin123")
            || (String.eqb username "staff" && String.eqb password "staff123"));
    reflexivity.
Qed.

End ComponentFacts.

(* ===================================================================== *)
(** ** The component on concrete inputs                                   *)
(* ===================================================================== *)

Section Examples.
Import Supabase.

(** No record of that name: the store answers [PGRST116], and [login]
    says so in a toast and resolves [false]. *)
Example login_unknown_username :
  AuthContext.login "nouser" "x" (Table.backend [Table.admin_row]) (AuthProvider_init ∅ roomy)
  = (Normal false,
     mkWorld JSON.JNull false ∅ roomy [toast_error_msg "Username tidak ditemukan"] []
             [Select "*" "nouser"]).
Proof. reflexivity. Qed.

Example login_wrong_password :
  AuthContext.login "admin" "salah" (Table.backend [Table.admin_row]) (AuthProvider_init ∅ roomy)
  = (Normal false,
     mkWorld JSON.JNull false ∅ roomy [toast_error_msg "Password salah"] [] [Select "*" "admin"]).
Proof. reflexivity. Qed.

(** A rejected promise is caught. *)
Example login_offline :
  AuthContext.login "admin" "rahasia" Table.offline (AuthProvider_init ∅ roomy)
  = (Normal false,
     mkWorld JSON.JNull false ∅ roomy [toast_error_msg "Terjadi kesalahan saat login"]
             ["Login error:"] [Select "*" "admin"]).
Proof. reflexivity. Qed.

(** [{ data: null, error: null }]: reading [users.password] throws, and
    the [catch] block answers. *)
Example login_null_data :
  AuthContext.login "admin" "rahasia"
    (mkBackend (fun _ => Fulfilled (mkResponse None None))
               (fun _ => Fulfilled (mkResponse None None))
               (fun _ _ => Fulfilled (mkResponse None None)))
    (AuthProvider_init ∅ roomy)
  = (Normal false,
     mkWorld JSON.JNull false ∅ roomy [toast_error_msg "Terjadi kesalahan saat login"]
             ["Login error:"] [Select "*" "admin"]).
Proof. reflexivity. Qed.

Example login_admin_stored_text :
  localStorage (snd (AuthContext.login "admin" "rahasia" (Table.backend [Table.admin_row])
                       (AuthProvider_init ∅ roomy))) !! "tobaku_user"
  = Some (String "{" (JSON.quote "id" +:+ ":" +:+ JSON.quote "1" +:+ ","
                      +:+ JSON.quote "name" +:+ ":" +:+ JSON.quote "Administrator" +:+ ","
                      +:+ JSON.quote "username" +:+ ":" +:+ JSON.quote "admin" +:+ ","
                      +:+ JSON.quote "role" +:+ ":" +:+ JSON.quote "admin" +:+ ","
                      +:+ JSON.quote "created_at" +:+ ":"
                      +:+ JSON.quote "2024-01-01T00:00:00Z" +:+ "}")).
Proof. reflexivity. Qed.

Example signup_new_username :
  AuthContext.signup (UserData.mk "Kasir Dua" "kasir2" "pw" UserData.staff)
    (Table.backend [Table.admin_row]) kasir_session
  = (Normal true,
     mkWorld (user kasir_session) false (localStorage kasir_session) roomy
             [toast_success_msg "Akun berhasil dibuat! Silakan login."] []
             [Select "username" "kasir2";
              Insert (UserData.mk "Kasir Dua" "kasir2" "pw" UserData.staff) false]).
Proof. reflexivity. Qed.

Example signup_insert_refused :
  fst (AuthContext.signup (UserData.mk "Kasir Dua" "kasir2" "pw" UserData.staff)
         Table.failing kasir_session) = Normal false
  /\ toasts (snd (AuthContext.signup (UserData.mk "Kasir Dua" "kasir2" "pw" UserData.staff)
                    Table.failing kasir_session))
     = [toast_error_msg "Gagal membuat akun"].
Proof. split; reflexivity. Qed.

Example restore_missing_key :
  AuthContext.AuthProvider_effect Table.offline (AuthProvider_init ∅ roomy)
  = (Normal tt, mkWorld JSON.JNull false ∅ roomy [] [] []).
Proof. reflexivity. Qed.

Example restore_saved_session :
  user (snd (AuthContext.AuthProvider_effect Table.offline
               (AuthProvider_init (localStorage kasir_session) roomy)))
  = User.to_value (user_of_row Table.kasir_row).
Proof. reflexivity. Qed.

(** Nothing checks what was stored: any JSON value becomes [currentUser]. *)
Example restore_any_json :
  user (snd (AuthContext.AuthProvider_effect Table.offline
               (AuthProvider_init {["tobaku_user" := "[true, null]"]} roomy)))
  = JSON.JArr [JSON.JBool true; JSON.JNull].
Proof. reflexivity. Qed.

Example parse_examples :
  JSON.parse " [1, -2.50e+3, {}] " 
  = JSON.Ok (JSON.JArr [JSON.JNum (Decimal (Pos (D1 Nil)) Nil);
                        JSON.JNum (DecimalExp (Neg (D2 Nil)) (D5 (D0 Nil)) (Pos (D3 Nil)));
                        JSON.JObj []])
  /\ JSON.parse "01" = JSON.SyntaxError
  /\ JSON.parse "[1,]" = JSON.SyntaxError
  /\ JSON.parse "{oops" = JSON.SyntaxError
  /\ JSON.parse "" = JSON.SyntaxError.
Proof. repeat split; reflexivity. Qed.

End Examples.

(* ===================================================================== *)
(** ** The properties of the specification                                *)
(* ===================================================================== *)

Section Specification.
Import Supabase.








(** C3, as the code has it.  The component validates neither what it
    restores nor what the store returns, so the data-model invariant on
    [currentUser] (null, or a fully-populated User with a non-empty
    username and a role among admin and staff) holds in every reachable
    state under two provisos: the snapshot found in local storage at the
    first page load is absent, empty, unparsable or parses to null or to
    such a User, and every row the store returns to a [login] has a
    non-empty username and a role among the two.  Under them the invariant
    (together with the same property of the stored snapshot) is preserved
    by startup restore, [login], [signup] and [logout]. *)
Theorem session_invariant_under_store_contract
    (storage : gmap string string) (w : World) :
  snapshot_invariant storage = true ->
  reachable store_contract storage w ->
  user_invariant (user w) = true /\ snapshot_invariant (localStorage w) = true.
Proof.
  intros Hstorage Hreach.
  induction Hreach as [be accepts | be w username password _ [IHu IHs] Hok
                      | be w userData _ [IHu IHs] | be w _ [IHu IHs]
                      | be w accepts _ [IHu IHs] | w accepts _ [IHu IHs]].
  - now apply effect_keeps_invariant.
  - now apply login_keeps_invariant.
  - destruct (signup_cases AuthContext_tsx be w userData) as (_ & Hu & Hs & _).
    cbn [signup_in] in Hu, Hs. rewrite Hu, Hs. now split.
  - cbn. split; [reflexivity|apply snapshot_after_logout].
  - now apply effect_keeps_invariant.
  - now split.
Qed.

Lemma session_invariant_under_store_contract_witness :
  let w := snd (AuthContext.login "admin" "rahasia" (Table.backend [Table.admin_row])
                  (snd (AuthContext.AuthProvider_effect Table.offline (AuthProvider_init ∅ roomy)))) in
  user w = User.to_value (user_of_row Table.admin_row)
  /\ user_invariant (user w) = true
  /\ snapshot_invariant (localStorage w) = true.
Proof.
  cbv zeta. split; [reflexivity|].
  apply (session_invariant_under_store_contract ∅).
  - reflexivity.
  - apply reach_login; [apply reach_mount | reflexivity].
Defined.

(** C3, as stated, fails: nothing asks for a non-empty username.  A row
    with an empty username (one that [signup] writes without objection)
    logs in, and [currentUser] then has an empty username. *)
Lemma blank_username_breaks_invariant :
  let w := snd (AuthContext.login "" "" (Table.backend [Table.blank_row])
                  (snd (AuthContext.AuthProvider_effect Table.offline (AuthProvider_init ∅ roomy)))) in
  reachable no_contract ∅ w
  /\ user w = User.to_value (User.mk "generated-id" "Tanpa Nama" "" "staff" "generated-timestamp")
  /\ user_invariant (user w) = false.
Proof.
  cbv zeta. split; [|split; reflexivity].
  apply reach_login; [apply reach_mount | exact I].
Qed.

(** The row of that example is one [signup] sends to the store: an empty
    username passes the existence check of an empty table and goes out in
    the insert. *)
Example signup_accepts_blank_username :
  let r := AuthContext.signup (UserData.mk "Tanpa Nama" "" "" UserData.staff)
             (Table.backend []) (AuthProvider_init ∅ roomy) in
  fst r = Normal true
  /\ network (snd r)
     = [Select "username" ""; Insert (UserData.mk "Tanpa Nama" "" "" UserData.staff) false].
Proof. cbv zeta. split; reflexivity. Qed.

(** C4, as the code has it.  A stored value that is not empty and not
    parseable as JSON: the restore effect leaves [currentUser] absent,
    deletes the stored key, does not throw and ends with [isLoading]
    false.  The empty string, which is not parseable either, is taken for
    no snapshot: the session stays empty and [isLoading] ends false, but
    the key stays.  In both versions of the file. *)
Theorem restore_discards_unparsable_snapshot
    (f : source) (be : Backend) (storage : gmap string string)
    (accepts : string -> string -> bool) (text : string) :
  storage !! "tobaku_user" = Some text ->
  (forall v, JSON.parse text <> JSON.Ok v) ->
  let r := effect_in f be (AuthProvider_init storage accepts) in
  fst r = Normal tt
  /\ user (snd r) = JSON.JNull
  /\ isLoading (snd r) = false
  /\ (text <> "" ->
      localStorage (snd r) = delete "tobaku_user" storage
      /\ localStorage (snd r) !! "tobaku_user" = None)
  /\ (text = "" -> localStorage (snd r) = storage).
Proof.
  intros Hkey Hparse r.
  destruct (effect_cases f be (AuthProvider_init storage accepts)) as (Hfst & Hload & H).
  fold r in Hfst, Hload, H. cbn [localStorage user AuthProvider_init] in H.
  rewrite Hkey in H.
  split; [exact Hfst|].
  destruct (String.eqb_spec text "") as [Heq|Hne].
  - destruct H as [Hu Hs].
    split; [exact Hu|]. split; [exact Hload|]. split; [contradiction|auto].
  - assert (Hdel : user (snd r) = JSON.JNull
                   /\ localStorage (snd r) = delete "tobaku_user" storage).
    { destruct (JSON.parse text) as [v| |] eqn:Hp; [now destruct (Hparse v)| |]; exact H. }
    destruct Hdel as [Hu Hs].
    split; [exact Hu|]. split; [exact Hload|]. split; [|contradiction].
    intros _. split; [exact Hs|]. rewrite Hs. apply lookup_delete_eq.
Qed.

Lemma restore_discards_unparsable_snapshot_witness :
  let r := AuthContext.AuthProvider_effect Table.offline
             (AuthProvider_init {["tobaku_user" := "{oops"]} roomy) in
  fst r = Normal tt
  /\ user (snd r) = JSON.JNull
  /\ isLoading (snd r) = false
  /\ localStorage (snd r) !! "tobaku_user" = None.
Proof.
  cbv zeta.
  assert (Hkey : ({["tobaku_user" := "{oops"]} : gmap string string) !! "tobaku_user"
                 = Some "{oops") by reflexivity.
  assert (Hparse : forall v, JSON.parse "{oops" <> JSON.Ok v)
    by (intros v; vm_compute; discriminate).
  destruct (restore_discards_unparsable_snapshot AuthContext_tsx Table.offline
              {["tobaku_user" := "{oops"]} roomy "{oops" Hkey Hparse)
    as (H1 & H2 & H3 & H4 & _).
  split; [exact H1|]. split; [exact H2|]. split; [exact H3|].
  apply H4. discriminate.
Defined.

(** C4, as stated, fails on the empty string: it is not parseable as
    JSON, and the restore effect leaves it under the key. *)
Lemma restore_keeps_empty_snapshot :
  let r := AuthContext.AuthProvider_effect Table.offline
             (AuthProvider_init {["tobaku_user" := ""]} roomy) in
  JSON.parse "" = JSON.SyntaxError
  /\ localStorage (snd r) !! "tobaku_user" = Some "".
Proof. cbv zeta. split; reflexivity. Qed.


(** C5.  [signup] when the existence query finds a record with the
    username: it resolves [false], and the existence query is the only
    request that went out, so nothing is inserted; [currentUser] is
    unchanged.  In both versions of the file. *)
Theorem signup_taken_username_inserts_nothing
    (f : source) (be : Backend) (w : World) (userData : UserData.t)
    (resp : Response string) (existing : string) :
  select_username be (UserData.username userData) = Fulfilled resp ->
  data resp = Some existing ->
  let r := signup_in f userData be w in
  fst r = Normal false
  /\ network (snd r) = (network w ++ [Select "username" (UserData.username userData)])%list
  /\ existsb is_insert (skipn (length (network w)) (network (snd r))) = false
  /\ user (snd r) = user w.
Proof.
  intros Hsel Hdata r.
  destruct (signup_cases f be w userData) as (_ & Hu & _ & _ & H).
  destruct (H resp existing Hsel Hdata) as [Hfalse Hnet]. fold r in Hfalse, Hnet, Hu.
  repeat split; auto.
  rewrite Hnet, skipn_app, skipn_all, Nat.sub_diag. reflexivity.
Qed.

Lemma signup_taken_username_inserts_nothing_witness :
  let r := AuthContext.signup (UserData.mk "Admin Kedua" "admin" "lain" UserData.admin)
             (Table.backend [Table.admin_row]) kasir_session in
  fst r = Normal false
  /\ network (snd r) = [Select "username" "admin"]
  /\ user (snd r) = user kasir_session.
Proof.
  cbv zeta.
  destruct (signup_taken_username_inserts_nothing AuthContext_tsx
              (Table.backend [Table.admin_row]) kasir_session
              (UserData.mk "Admin Kedua" "admin" "lain" UserData.admin)
              (mkResponse (Some "admin") None) "admin" eq_refl eq_refl)
    as (H1 & H2 & _ & H4).
  split; [exact H1|]. split; [exact H2|exact H4].
Defined.

(** C6.  [signup] never sets [currentUser] and never touches local
    storage: whatever the input and whatever the store answers, it
    completes with [true] or [false] and both are what they were before
    the call.  In both versions of the file. *)
Theorem signup_keeps_session
    (f : source) (be : Backend) (w : World) (userData : UserData.t) :
  (fst (signup_in f userData be w) = Normal true
   \/ fst (signup_in f userData be w) = Normal false)
  /\ user (snd (signup_in f userData be w)) = user w
  /\ localStorage (snd (signup_in f userData be w)) = localStorage w.
Proof.
  destruct (signup_cases f be w userData) as (_ & Hu & Hs & Hb & _). auto.
Qed.

(** C7.  [logout] sets [currentUser] to null and removes ["tobaku_user"]
    from local storage, for every prior state; it completes normally, it
    sends no request, and its result does not depend on the backend.  In
    both versions of the file. *)
Theorem logout_clears_session (f : source) (be : Backend) (w : World) :
  fst (logout_in f be w) = Normal tt
  /\ user (snd (logout_in f be w)) = JSON.JNull
  /\ localStorage (snd (logout_in f be w)) = delete "tobaku_user" (localStorage w)
  /\ localStorage (snd (logout_in f be w)) !! "tobaku_user" = None
  /\ network (snd (logout_in f be w)) = network w
  /\ (forall be', logout_in f be' w = logout_in f be w).
Proof.
  destruct f;
    unfold logout_in, AuthContext.logout, Part000.logout, bind, setUser,
      localStorage_removeItem;
    cbn [fst snd user localStorage network set_user set_localStorage];
    repeat split; apply lookup_delete_eq.
Qed.

(** C8.  Round trip: after a successful [login], the text stored under
    ["tobaku_user"] parses to the [currentUser] that the login set, and
    the restore effect of the next page load, run over that storage, sets
    [currentUser] to the same value.  In both versions of the file. *)
Theorem login_snapshot_round_trip
    (f : source) (be : Backend) (w : World) (username password : string) :
  fst (login_in f username password be w) = Normal true ->
  let w' := snd (login_in f username password be w) in
  (exists text,
      localStorage w' !! "tobaku_user" = Some text
      /\ JSON.parse text = JSON.Ok (user w'))
  /\ (forall be' accepts,
         user (snd (effect_in f be' (AuthProvider_init (localStorage w') accepts)))
         = user w').
Proof.
  intros Htrue w'.
  assert (H : exists row,
             user w' = User.to_value (user_of_row row)
             /\ localStorage w'
                = <["tobaku_user" := JSON.stringify (User.to_value (user_of_row row))]>
                    (localStorage w)).
  { subst w'. destruct f; cbn [login_in] in *.
    - destruct (login_cases be w username password) as (_ & [H|[H|H]]).
      + destruct H as (_ & row & _ & _ & Hu & Hs & _). eauto.
      + destruct H as (Hfalse & _). rewrite Hfalse in Htrue. discriminate.
      + destruct H as (Hfalse & _). rewrite Hfalse in Htrue. discriminate.
    - destruct (login_cases_part_000 be w username password) as (_ & [H|[H|H]]).
      + destruct H as (_ & _ & row & _ & Hu & Hs & _). eauto.
      + destruct H as (Hfalse & _). rewrite Hfalse in Htrue. discriminate.
      + destruct H as (Hfalse & _). rewrite Hfalse in Htrue. discriminate. }
  destruct H as (row & Hu & Hs).
  assert (Hkey : localStorage w' !! "tobaku_user"
                 = Some (JSON.stringify (User.to_value (user_of_row row)))).
  { rewrite Hs. apply lookup_insert_eq. }
  split.
  - eexists. split; [exact Hkey|]. rewrite Hu. apply parse_stringify_user.
  - intros be' accepts.
    destruct (effect_cases f be' (AuthProvider_init (localStorage w') accepts))
      as (_ & _ & H).
    cbn [localStorage user AuthProvider_init] in H.
    rewrite Hkey, stringify_user_nonempty, parse_stringify_user in H.
    destruct H as [H _]. now rewrite H.
Qed.

Lemma login_snapshot_round_trip_witness :
  let w' := snd (AuthContext.login "admin" "rahasia" (Table.backend [Table.admin_row])
                   (AuthProvider_init ∅ roomy)) in
  user (snd (AuthContext.AuthProvider_effect Table.offline
               (AuthProvider_init (localStorage w') roomy)))
  = User.to_value (user_of_row Table.admin_row).
Proof.
  cbv zeta.
  destruct (login_snapshot_round_trip AuthContext_tsx (Table.backend [Table.admin_row])
              (AuthProvider_init ∅ roomy) "admin" "rahasia" eq_refl) as [_ H].
  exact (H Table.offline roomy).
Defined.

(** C9.  [login] and [signup] always complete, by resolving [true] or
    [false], and [isLoading] is false when they do: whatever the outcome
    of the remote calls, a rejected promise included.  In both versions of
    the file. *)
Theorem isLoading_false_after_call (f : source) (be : Backend) (w : World) :
  (forall username password,
      isLoading (snd (login_in f username password be w)) = false
      /\ (fst (login_in f username password be w) = Normal true
          \/ fst (login_in f username password be w) = Normal false))
  /\ (forall userData,
         isLoading (snd (signup_in f userData be w)) = false
         /\ (fst (signup_in f userData be w) = Normal true
             \/ fst (signup_in f userData be w) = Normal false)).
Proof.
  split.
  - intros username password. split.
    + destruct f; apply finally_resets_isLoading.
    + destruct f; cbn [login_in].
      * destruct (login_cases be w username password)
          as (_ & [(H & _)|[(H & _)|(H & _)]]); auto.
      * destruct (login_cases_part_000 be w username password)
          as (_ & [(H & _)|[(H & _)|(H & _)]]); auto.
  - intros userData. split.
    + destruct f; apply finally_resets_isLoading.
    + destruct (signup_cases f be w userData) as (_ & _ & _ & H & _). exact H.
Qed.

(** C10.  [login] of [unnamed/part_000]: it resolves [true] only when the
    pair supplied is ("admin", "admin123") or ("staff", "staff123") and
    the lookup returned a record; the stored password plays no part (the
    same call against the same record with any other stored password runs
    identically); so for any other username, a login with the record's
    own stored password resolves [false]. *)
Theorem part_000_login_ignores_stored_password
    (be : Backend) (w : World) (username password : string) :
  (fst (Part000.login username password be w) = Normal true ->
   ((username = "admin" /\ password = "admin123")
    \/ (username = "staff" /\ password = "staff123"))
   /\ exists row, select_all be username = Fulfilled (mkResponse (Some row) None))
  /\ (forall row be' pw,
         select_all be username = Fulfilled (mkResponse (Some row) None) ->
         select_all be' username
         = Fulfilled (mkResponse (Some (with_password pw row)) None) ->
         Part000.login username password be' w = Part000.login username password be w)
  /\ (forall row,
         select_all be username = Fulfilled (mkResponse (Some row) None) ->
         username <> "admin" -> username <> "staff" ->
         password = Row.password row ->
         fst (Part000.login username password be w) = Normal false).
Proof.
  assert (Hdemo : demo_account username password = true ->
                  (username = "admin" /\ password = "admin123")
                  \/ (username = "staff" /\ password = "staff123")).
  { unfold demo_account. intros H.
    apply orb_true_iff in H as [H|H]; apply andb_true_iff in H as [Hu Hp];
      apply String.eqb_eq in Hu, Hp; auto. }
  split; [|split].
  - intros Htrue.
    destruct (login_cases_part_000 be w username password) as (_ & [H|[H|H]]).
    + destruct H as (_ & Hd & row & Hlookup & _). split; [auto|eauto].
    + destruct H as (Hfalse & _). rewrite Hfalse in Htrue. discriminate.
    + destruct H as (Hfalse & _). rewrite Hfalse in Htrue. discriminate.
  - intros row be' pw Hlookup Hlookup'.
    now apply login_part_000_password_irrelevant with (pw := pw) (row := row).
  - intros row Hlookup Hadmin Hstaff _.
    destruct (login_cases_part_000 be w username password) as (_ & [H|[H|H]]).
    + destruct H as (_ & Hd & _). destruct (Hdemo Hd) as [[? _]|[? _]]; contradiction.
    + now destruct H.
    + now destruct H.
Qed.

Lemma part_000_login_ignores_stored_password_witness :
  fst (Part000.login "kasir1" "kasir-pw" (Table.backend [Table.kasir_row])
         (AuthProvider_init ∅ roomy)) = Normal false
  /\ fst (AuthContext.login "kasir1" "kasir-pw" (Table.backend [Table.kasir_row])
            (AuthProvider_init ∅ roomy)) = Normal true.
Proof.
  split; [|reflexivity].
  destruct (part_000_login_ignores_stored_password (Table.backend [Table.kasir_row])
              (AuthProvider_init ∅ roomy) "kasir1" "kasir-pw") as (_ & _ & H).
  apply (H Table.kasir_row); [reflexivity|discriminate|discriminate|reflexivity].
Defined.

End Specification.

(* ===================================================================== *)
(** ** Further properties of the component                                *)
(* ===================================================================== *)

Section Further.
Import Supabase.

Ltac run_commands :=
  unfold login_in, signup_in, logout_in, effect_in,
    AuthContext.login, AuthContext.signup, AuthContext.logout,
    AuthContext.AuthProvider_effect,
    Part000.login, Part000.signup, Part000.logout, Part000.AuthProvider_effect,
    try_catch_finally, try_finally, try_catch, bind, ret, throw,
    setUser, setIsLoading, localStorage_getItem, localStorage_setItem,
    localStorage_removeItem, toast_error, toast_success, console_error,
    select_all_single, select_username_single, insert_users, await, read_password;
  cbn.

Ltac login_answers be u :=
  destruct (select_all be u) as [[[?row|] [?err|]]|?reason] eqn:?Hlookup; cbn.

Ltac signup_answers be d :=
  destruct (select_username be (UserData.username d))
    as [[[?existing|] ?err]|?reason] eqn:?Hcheck; cbn;
  [ | match goal with
      | |- context [insert be d ?flag] =>
          destruct (insert be d flag)
            as [[?newUser [?insertError|]]|?reason] eqn:?Hinsert; cbn
      end | ].

(** X1.  [login] sends exactly one request, the lookup of the username
    with all columns, whatever the store answers and whatever the outcome;
    it never inserts.  In both versions of the file. *)
Theorem login_sends_one_select
    (f : source) (be : Backend) (w : World) (username password : string) :
  network (snd (login_in f username password be w))
  = (network w ++ [Select "*" username])%list.
Proof.
  destruct f; run_commands; login_answers be username;
    repeat match goal with
    | |- context [if ?b then _ else _] => destruct b; cbn
    end; reflexivity.
Qed.

(** X2.  [login] of [AuthContext.tsx] on an error response, with or
    without data beside it: it resolves [false]; the code [PGRST116] gives
    the toast "Username tidak ditemukan" and no console line, any other
    code gives the console line and the toast "Terjadi kesalahan saat
    login"; session and storage are untouched. *)
Theorem login_error_response
    (be : Backend) (w : World) (username password : string)
    (d : option Row.t) (err : PostgrestError) :
  select_all be username = Fulfilled (mkResponse d (Some err)) ->
  let r := AuthContext.login username password be w in
  fst r = Normal false
  /\ user (snd r) = user w
  /\ localStorage (snd r) = localStorage w
  /\ (code err = "PGRST116" ->
      toasts (snd r) = (toasts w ++ [toast_error_msg "Username tidak ditemukan"])%list
      /\ console (snd r) = console w)
  /\ (code err <> "PGRST116" ->
      toasts (snd r) = (toasts w ++ [toast_error_msg "Terjadi kesalahan saat login"])%list
      /\ console (snd r) = (console w ++ ["Login error:"])%list).
Proof.
  intros Hlookup. run_commands. rewrite Hlookup. cbn.
  destruct (String.eqb_spec (code err) "PGRST116") as [Heq|Hne]; cbn;
    repeat split; try reflexivity; intros; contradiction.
Qed.

Lemma login_error_response_witness :
  let r := AuthContext.login "admin" "rahasia" Table.failing kasir_session in
  fst r = Normal false
  /\ toasts (snd r) = [toast_error_msg "Terjadi kesalahan saat login"]
  /\ console (snd r) = ["Login error:"].
Proof.
  cbv zeta.
  destruct (login_error_response Table.failing kasir_session "admin" "rahasia" None
              (mkError "500" "internal error") eq_refl) as (H1 & _ & _ & _ & H5).
  split; [exact H1|]. apply H5. discriminate.
Defined.


(** X3.  Every call of [login] of [AuthContext.tsx] shows exactly one
    toast, and it is a success toast exactly when the call resolves
    [true]. *)
Theorem login_shows_one_toast
    (be : Backend) (w : World) (username password : string) :
  exists t,
    toasts (snd (AuthContext.login username password be w)) = (toasts w ++ [t])%list
    /\ (fst (AuthContext.login username password be w) = Normal true
        <-> exists msg, t = toast_success_msg msg).
Proof.
  run_commands; login_answers be username;
    repeat match goal with
    | |- context [if ?b then _ else _] => destruct b; cbn
    end;
    (eexists; split; [reflexivity|]);
    (split; [intros H; first [discriminate H | eexists; reflexivity]
            | intros [msg H]; first [discriminate H | reflexivity]]).
Qed.

(** X4.  [login] of [AuthContext.tsx] says "Password salah" exactly when
    the store returned a row, without error, whose stored password differs
    from the one supplied.  In particular a response with neither data nor
    error is not reported as a wrong password. *)
Theorem login_wrong_password_toast
    (be : Backend) (w : World) (username password : string) :
  toasts (snd (AuthContext.login username password be w))
  = (toasts w ++ [toast_error_msg "Password salah"])%list
  <-> exists row,
      select_all be username = Fulfilled (mkResponse (Some row) None)
      /\ Row.password row <> password.
Proof.
  run_commands; login_answers be username;
    repeat match goal with
    | |- context [if String.eqb ?a ?b then _ else _] =>
        destruct (String.eqb_spec a b); cbn
    end;
    repeat match goal with
    | |- context [if ?b then _ else _] => destruct b; cbn
    end;
    (split;
     [ intros H; apply app_inv_head in H; first [discriminate H | eauto]
     | intros (row' & Hrow & Hne);
       first [discriminate Hrow | injection Hrow as <-; first [contradiction | reflexivity]] ]).
Qed.

(** X5.  [login] of [AuthContext.tsx] on a fulfilled response with
    neither data nor error: reading the password of the null record
    throws, the [catch] block logs and shows the generic failure toast,
    and the call resolves [false] with session and storage untouched. *)
Theorem login_null_record
    (be : Backend) (w : World) (username password : string) :
  select_all be username = Fulfilled (mkResponse None None) ->
  let r := AuthContext.login username password be w in
  fst r = Normal false
  /\ toasts (snd r) = (toasts w ++ [toast_error_msg "Terjadi kesalahan saat login"])%list
  /\ console (snd r) = (console w ++ ["Login error:"])%list
  /\ user (snd r) = user w
  /\ localStorage (snd r) = localStorage w.
Proof.
  intros Hlookup. run_commands. rewrite Hlookup. cbn. repeat split.
Qed.

Lemma login_null_record_witness :
  let be := mkBackend (fun _ => Fulfilled (mkResponse None None))
                      (fun _ => Fulfilled (mkResponse None None))
                      (fun _ _ => Fulfilled (mkResponse None None)) in
  fst (AuthContext.login "admin" "rahasia" be kasir_session) = Normal false
  /\ user (snd (AuthContext.login "admin" "rahasia" be kasir_session)) = user kasir_session.
Proof.
  cbv zeta.
  destruct (login_null_record
              (mkBackend (fun _ => Fulfilled (mkResponse None None))
                         (fun _ => Fulfilled (mkResponse None None))
                         (fun _ _ => Fulfilled (mkResponse None None)))
              kasir_session "admin" "rahasia" eq_refl) as (H1 & _ & _ & H4 & _).
  split; [exact H1 | exact H4].
Defined.

(** X6.  [login] of [unnamed/part_000], whenever the lookup promise is
    fulfilled, shows no toast of its own: not on an error response, not on
    a refused pair, and not on success either.  The one toast it can show
    then is that of the [catch] block, and it shows it in one case only:
    the pair is accepted, a record came back, and the write of the
    snapshot to local storage threw. *)
Theorem part_000_login_is_silent
    (be : Backend) (w : World) (username password : string)
    (resp : Response Row.t) :
  select_all be username = Fulfilled resp ->
  let r := Part000.login username password be w in
  let refused :=
    exists row,
      resp = mkResponse (Some row) None
      /\ demo_account username password = true
      /\ storage_accepts w "tobaku_user"
           (JSON.stringify
              (JSON.JObj [("id", JSON.JStr (Row.id row)); ("name", JSON.JStr (Row.name row));
                          ("username", JSON.JStr (Row.username row));
                          ("role", JSON.JStr (Row.role row));
                          ("created_at", JSON.JStr (Row.created_at row))])) = false in
  (~ refused -> toasts (snd r) = toasts w)
  /\ (refused ->
      fst r = Normal false
      /\ toasts (snd r) = (toasts w ++ [toast_error_msg "Terjadi kesalahan saat login"])%list).
Proof.
  intros Hlookup r refused. subst r refused.
  run_commands. rewrite Hlookup. cbn. fold (demo_account username password).
  destruct resp as [[row|] [err|]]; cbn;
    try (split; [reflexivity | intros (row' & [=] & _)]).
  destruct (demo_account username password); cbn;
    [|split; [reflexivity | intros (row' & _ & [=] & _)]].
  match goal with
  | |- context [storage_accepts ?w0 ?k ?t] => destruct (storage_accepts w0 k t) eqn:Hroom
  end; cbn.
  - split; [reflexivity|]. intros (row' & [= <-] & _ & Hno).
    cbn in Hroom. rewrite Hroom in Hno. discriminate.
  - split; [|split; reflexivity].
    intros Hno. exfalso. apply Hno. exists row. cbn in Hroom. auto.
Qed.

Lemma part_000_login_is_silent_witness :
  fst (Part000.login "admin" "admin123" (Table.backend [Table.admin_row])
         (AuthProvider_init ∅ roomy)) = Normal true
  /\ toasts (snd (Part000.login "admin" "admin123" (Table.backend [Table.admin_row])
                    (AuthProvider_init ∅ roomy))) = []
  /\ toasts (snd (Part000.login "admin" "admin123" (Table.backend [Table.admin_row])
                    (AuthProvider_init ∅ full)))
     = [toast_error_msg "Terjadi kesalahan saat login"].
Proof.
  split; [reflexivity|]. split.
  - destruct (part_000_login_is_silent (Table.backend [Table.admin_row])
                (AuthProvider_init ∅ roomy) "admin" "admin123" _ eq_refl) as [Hquiet _].
    apply Hquiet. intros (row & _ & _ & Hroom). discriminate Hroom.
  - destruct (part_000_login_is_silent (Table.backend [Table.admin_row])
                (AuthProvider_init ∅ full) "admin" "admin123" _ eq_refl) as [_ Hcaught].
    apply Hcaught. exists Table.admin_row. repeat split.
Defined.

(** X7.  The stored password never reaches the session: after a
    successful [login], [currentUser] has no [password] member, and
    neither has the value that the stored snapshot parses to.  In both
    versions of the file. *)
Theorem login_never_keeps_password
    (f : source) (be : Backend) (w : World) (username password : string) :
  fst (login_in f username password be w) = Normal true ->
  let w' := snd (login_in f username password be w) in
  JSON.get (user w') "password" = None
  /\ exists text v,
      localStorage w' !! "tobaku_user" = Some text
      /\ JSON.parse text = JSON.Ok v
      /\ JSON.get v "password" = None.
Proof.
  intros Htrue w'.
  assert (H : exists row,
             user w' = User.to_value (user_of_row row)
             /\ localStorage w' !! "tobaku_user"
                = Some (JSON.stringify (User.to_value (user_of_row row)))).
  { subst w'. destruct f; cbn [login_in] in *.
    - destruct (login_cases be w username password) as (_ & [H|[H|H]]).
      + destruct H as (_ & row & _ & _ & Hu & Hs & _). exists row.
        split; [exact Hu|]. rewrite Hs. apply lookup_insert_eq.
      + destruct H as (Hfalse & _). rewrite Hfalse in Htrue. discriminate.
      + destruct H as (Hfalse & _). rewrite Hfalse in Htrue. discriminate.
    - destruct (login_cases_part_000 be w username password) as (_ & [H|[H|H]]).
      + destruct H as (_ & _ & row & _ & Hu & Hs & _). exists row.
        split; [exact Hu|]. rewrite Hs. apply lookup_insert_eq.
      + destruct H as (Hfalse & _). rewrite Hfalse in Htrue. discriminate.
      + destruct H as (Hfalse & _). rewrite Hfalse in Htrue. discriminate. }
  destruct H as (row & Hu & Hs). rewrite Hu. split; [reflexivity|].
  exists (JSON.stringify (User.to_value (user_of_row row))),
         (User.to_value (user_of_row row)).
  split; [exact Hs|]. split; [apply parse_stringify_user | reflexivity].
Qed.

Lemma login_never_keeps_password_witness :
  JSON.get (user (snd (AuthContext.login "admin" "rahasia" (Table.backend [Table.admin_row])
                         (AuthProvider_init ∅ roomy)))) "password" = None.
Proof.
  exact (proj1 (login_never_keeps_password AuthContext_tsx (Table.backend [Table.admin_row])
                  (AuthProvider_init ∅ roomy) "admin" "rahasia" eq_refl)).
Defined.


(** X8.  [signup] resolves [true] exactly when the existence query is
    fulfilled without data and the insert is fulfilled without error.  An
    error beside the missing data of the existence query does not count.
    In both versions of the file. *)
Theorem signup_true_iff
    (f : source) (be : Backend) (w : World) (userData : UserData.t) :
  fst (signup_in f userData be w) = Normal true
  <-> exists check created,
      select_username be (UserData.username userData) = Fulfilled check
      /\ data check = None
      /\ insert be userData (insert_returning f) = Fulfilled created
      /\ error created = None.
Proof.
  destruct f; run_commands; signup_answers be userData.
  all: split;
    [ intros H; first [discriminate H | do 2 eexists; repeat split; eauto]
    | intros (check & created & Hc & Hd & Hi & He);
      first [ discriminate Hc
            | injection Hc as <-; cbn in Hd;
              first [ discriminate Hd
                    | cbn [insert_returning] in Hi; rewrite Hi in *;
                      first [ discriminate
                            | match goal with
                              | H : Fulfilled _ = Fulfilled _ |- _ =>
                                  injection H as <-; cbn in He;
                                  first [discriminate He | reflexivity]
                              end ] ] ] ].
Qed.


(** X9.  When the existence query of [signup] is fulfilled without data,
    the insert goes out, whatever error came beside the missing data, and
    it carries the supplied name, username, password and role unchanged;
    these two requests are all that is sent.  In both versions of the
    file. *)
Theorem signup_inserts_after_empty_check
    (f : source) (be : Backend) (w : World) (userData : UserData.t)
    (check : Response string) :
  select_username be (UserData.username userData) = Fulfilled check ->
  data check = None ->
  network (snd (signup_in f userData be w))
  = (network w ++ [Select "username" (UserData.username userData);
                   Insert userData (insert_returning f)])%list.
Proof.
  intros Hcheck Hdata. destruct check as [d e]. cbn in Hdata. subst d.
  destruct f; run_commands; rewrite Hcheck; cbn;
    match goal with
    | |- context [insert be userData ?flag] =>
        destruct (insert be userData flag) as [[newUser [insertError|]]|reason]; cbn
    end; now rewrite <- app_assoc.
Qed.

Lemma signup_inserts_after_empty_check_witness :
  network (snd (AuthContext.signup (UserData.mk "Kasir Dua" "kasir2" "pw" UserData.staff)
                  Table.failing (AuthProvider_init ∅ roomy)))
  = [Select "username" "kasir2";
     Insert (UserData.mk "Kasir Dua" "kasir2" "pw" UserData.staff) false].
Proof.
  exact (signup_inserts_after_empty_check AuthContext_tsx Table.failing (AuthProvider_init ∅ roomy)
           (UserData.mk "Kasir Dua" "kasir2" "pw" UserData.staff) _ eq_refl eq_refl).
Defined.

(** X10.  Every call of [signup] shows exactly one toast, and it is the
    success toast "Akun berhasil dibuat! Silakan login." exactly when the
    call resolves [true].  In both versions of the file. *)
Theorem signup_shows_one_toast
    (f : source) (be : Backend) (w : World) (userData : UserData.t) :
  exists t,
    toasts (snd (signup_in f userData be w)) = (toasts w ++ [t])%list
    /\ (fst (signup_in f userData be w) = Normal true
        <-> t = toast_success_msg "Akun berhasil dibuat! Silakan login.").
Proof.
  destruct f; run_commands; signup_answers be userData;
    (eexists; split; [reflexivity|]);
    (split; intros H; first [discriminate H | reflexivity]).
Qed.

(** X11.  A rejected promise in [signup] is caught: whether it is the
    existence query or the insert that is rejected, the call resolves
    [false], logs "Signup error:" and shows "Terjadi kesalahan saat membuat
    akun"; after a rejected existence query no insert is sent.  In both
    versions of the file. *)
Theorem signup_rejected_promise
    (f : source) (be : Backend) (w : World) (userData : UserData.t) :
  (forall reason,
      select_username be (UserData.username userData) = Rejected reason ->
      network (snd (signup_in f userData be w))
      = (network w ++ [Select "username" (UserData.username userData)])%list)
  /\ ((exists reason,
          select_username be (UserData.username userData) = Rejected reason)
      \/ (exists check reason,
             select_username be (UserData.username userData) = Fulfilled check
             /\ data check = None
             /\ insert be userData (insert_returning f) = Rejected reason) ->
      fst (signup_in f userData be w) = Normal false
      /\ toasts (snd (signup_in f userData be w))
         = (toasts w ++ [toast_error_msg "Terjadi kesalahan saat membuat akun"])%list
      /\ console (snd (signup_in f userData be w)) = (console w ++ ["Signup error:"])%list).
Proof.
  split.
  - intros reason Hcheck. destruct f; run_commands; now rewrite Hcheck.
  - intros [[reason Hcheck] | (check & reason & Hcheck & Hdata & Hinsert)].
    + destruct f; run_commands; rewrite Hcheck; cbn; repeat split.
    + destruct check as [d e]. cbn in Hdata. subst d.
      destruct f; cbn [insert_returning] in Hinsert; run_commands;
        rewrite Hcheck; cbn; rewrite Hinsert; cbn; repeat split.
Qed.

Lemma signup_rejected_promise_witness :
  fst (AuthContext.signup (UserData.mk "Kasir Dua" "kasir2" "pw" UserData.staff)
         Table.offline kasir_session) = Normal false
  /\ network (snd (AuthContext.signup (UserData.mk "Kasir Dua" "kasir2" "pw" UserData.staff)
                     Table.offline kasir_session))
     = [Select "username" "kasir2"].
Proof.
  destruct (signup_rejected_promise AuthContext_tsx Table.offline kasir_session
              (UserData.mk "Kasir Dua" "kasir2" "pw" UserData.staff)) as [Hnet Hmsg].
  split.
  - apply Hmsg. left. exists "Failed to fetch". reflexivity.
  - exact (Hnet "Failed to fetch" eq_refl).
Defined.

(** X12.  The component owns one key of local storage: [login],
    [signup], [logout] and the restore effect leave every key other than
    ["tobaku_user"] as it was.  In both versions of the file. *)
Theorem other_keys_untouched
    (f : source) (be : Backend) (w : World) (key : string) :
  key <> "tobaku_user" ->
  (forall username password,
      localStorage (snd (login_in f username password be w)) !! key = localStorage w !! key)
  /\ (forall userData,
         localStorage (snd (signup_in f userData be w)) !! key = localStorage w !! key)
  /\ localStorage (snd (logout_in f be w)) !! key = localStorage w !! key
  /\ localStorage (snd (effect_in f be w)) !! key = localStorage w !! key.
Proof.
  intros Hkey. split; [|split; [|split]].
  - intros username password. destruct f; cbn [login_in].
    + destruct (login_cases be w username password) as (_ & [H|[H|H]]).
      * destruct H as (_ & row & _ & _ & _ & -> & _). now apply lookup_insert_ne.
      * destruct H as (_ & row & _ & _ & _ & -> & _). reflexivity.
      * destruct H as (_ & _ & -> & _). reflexivity.
    + destruct (login_cases_part_000 be w username password) as (_ & [H|[H|H]]).
      * destruct H as (_ & _ & row & _ & _ & -> & _). now apply lookup_insert_ne.
      * destruct H as (_ & _ & row & _ & _ & -> & _). reflexivity.
      * destruct H as (_ & _ & -> & _). reflexivity.
  - intros userData.
    destruct (signup_cases f be w userData) as (_ & _ & -> & _). reflexivity.
  - destruct f; cbn; now apply lookup_delete_ne.
  - destruct (effect_cases f be w) as (_ & _ & H).
    destruct (localStorage w !! "tobaku_user") as [text|].
    + destruct (String.eqb text ""); [now destruct H as [_ ->]|].
      destruct (JSON.parse text); destruct H as [_ ->];
        first [reflexivity | now apply lookup_delete_ne].
    + now destruct H as [_ ->].
Qed.

Lemma other_keys_untouched_witness :
  let w := mkWorld JSON.JNull false {["theme" := "dark"]} roomy [] [] [] in
  localStorage (snd (AuthContext.login "admin" "rahasia" (Table.backend [Table.admin_row]) w))
    !! "theme" = Some "dark"
  /\ localStorage (snd (AuthContext.logout Table.offline w)) !! "theme" = Some "dark".
Proof.
  cbv zeta.
  destruct (other_keys_untouched AuthContext_tsx (Table.backend [Table.admin_row])
              (mkWorld JSON.JNull false {["theme" := "dark"]} roomy [] [] []) "theme")
    as (Hlogin & _ & _ & _); [discriminate|].
  split; [exact (Hlogin "admin" "rahasia") | reflexivity].
Defined.


(** [logout] leaves no snapshot. *)
Lemma logout_clears_storage (f : source) (be : Backend) (w : World) :
  localStorage (snd (logout_in f be w)) = delete "tobaku_user" (localStorage w)
  /\ localStorage (snd (logout_in f be w)) !! "tobaku_user" = None.
Proof.
  destruct f; run_commands; (split; [reflexivity | apply lookup_delete_eq]).
Qed.

(** X13.  [logout] is idempotent: a second [logout] changes nothing that
    the first left.  And it touches neither [isLoading], nor the toasts,
    nor the console.  In both versions of the file. *)
Theorem logout_idempotent (f : source) (be be' : Backend) (w : World) :
  snd (logout_in f be' (snd (logout_in f be w))) = snd (logout_in f be w)
  /\ isLoading (snd (logout_in f be w)) = isLoading w
  /\ toasts (snd (logout_in f be w)) = toasts w
  /\ console (snd (logout_in f be w)) = console w.
Proof.
  destruct f; run_commands; unfold set_localStorage, set_user; cbn;
    rewrite delete_delete_eq; repeat split.
Qed.

(** X14.  After [logout], a page load finds no session: the restore
    effect over the storage that [logout] left completes with
    [currentUser] null, [isLoading] false and no snapshot.  In both
    versions of the file. *)
Theorem logout_then_reload (f : source) (be be' : Backend) (w : World)
    (accepts : string -> string -> bool) :
  let w' := snd (effect_in f be'
                   (AuthProvider_init (localStorage (snd (logout_in f be w))) accepts)) in
  user w' = JSON.JNull
  /\ isLoading w' = false
  /\ localStorage w' !! "tobaku_user" = None.
Proof.
  cbv zeta.
  destruct (logout_clears_storage f be w) as [Hdel Hnone].
  destruct (effect_cases f be'
              (AuthProvider_init (localStorage (snd (logout_in f be w))) accepts))
    as (_ & Hload & H).
  cbn [localStorage user AuthProvider_init] in H. rewrite Hnone in H.
  destruct H as [Hu Hs]. repeat split; auto. now rewrite Hs.
Qed.

(** X15.  The restore effect is local and quiet: on every world it
    completes normally, sends no request, shows no toast and ends with
    [isLoading] false; it writes to the console only when it removes the
    snapshot.  In both versions of the file. *)
Theorem effect_is_local (f : source) (be : Backend) (w : World) :
  let r := effect_in f be w in
  fst r = Normal tt
  /\ isLoading (snd r) = false
  /\ network (snd r) = network w
  /\ toasts (snd r) = toasts w
  /\ (console (snd r) = console w
      \/ (console (snd r) = (console w ++ ["Error parsing saved user:"])%list
          /\ localStorage (snd r) !! "tobaku_user" = None)).
Proof.
  destruct f; run_commands;
    (destruct (localStorage w !! "tobaku_user") as [text|]; cbn; [|repeat split; auto]);
    (destruct (String.eqb text ""); cbn; [repeat split; auto|]);
    unfold JSON_parse, ret, throw; destruct (JSON.parse text); cbn;
    (split; [reflexivity|]); (split; [reflexivity|]); (split; [reflexivity|]);
    (split; [reflexivity|]);
    first [ left; reflexivity | right; split; [reflexivity | apply lookup_delete_eq] ].
Qed.

(** X16.  The restore effect validates nothing: whatever JSON value a
    non-empty stored text parses to becomes [currentUser], and the text
    stays in storage.  In both versions of the file. *)
Theorem effect_accepts_any_json
    (f : source) (be : Backend) (storage : gmap string string)
    (accepts : string -> string -> bool) (text : string) (v : JSON.value) :
  storage !! "tobaku_user" = Some text ->
  text <> "" ->
  JSON.parse text = JSON.Ok v ->
  let r := effect_in f be (AuthProvider_init storage accepts) in
  user (snd r) = v
  /\ localStorage (snd r) = storage
  /\ console (snd r) = [].
Proof.
  intros Hkey Hne Hparse. apply String.eqb_neq in Hne.
  destruct f; run_commands; rewrite Hkey; cbn; rewrite Hne; cbn;
    unfold JSON_parse, ret; rewrite Hparse; cbn; repeat split.
Qed.

Lemma effect_accepts_any_json_witness :
  user (snd (AuthContext.AuthProvider_effect Table.offline
               (AuthProvider_init {["tobaku_user" := "[true, null]"]} roomy)))
  = JSON.JArr [JSON.JBool true; JSON.JNull].
Proof.
  assert (Hkey : ({["tobaku_user" := "[true, null]"]} : gmap string string) !! "tobaku_user"
                 = Some "[true, null]") by reflexivity.
  assert (Hne : "[true, null]" <> "") by discriminate.
  assert (Hparse : JSON.parse "[true, null]"
                   = JSON.Ok (JSON.JArr [JSON.JBool true; JSON.JNull])) by reflexivity.
  exact (proj1 (effect_accepts_any_json AuthContext_tsx Table.offline _ roomy _ _
                  Hkey Hne Hparse)).
Defined.


(** What the restore effect of a page load computes. *)
Lemma effect_restores (be : Backend) (storage : gmap string string)
    (accepts : string -> string -> bool) :
  user (snd (AuthContext.AuthProvider_effect be (AuthProvider_init storage accepts)))
  = restored storage
  /\ restored (localStorage (snd (AuthContext.AuthProvider_effect be
                                    (AuthProvider_init storage accepts))))
     = restored storage.
Proof.
  destruct (effect_cases AuthContext_tsx be (AuthProvider_init storage accepts))
    as (_ & _ & H).
  cbn [effect_in localStorage user AuthProvider_init] in H. unfold restored at 2 3.
  destruct (storage !! "tobaku_user") as [text|] eqn:Hkey.
  - destruct (String.eqb text "") eqn:Hempty.
    + destruct H as [-> ->]. unfold restored. now rewrite Hkey, Hempty.
    + destruct (JSON.parse text) as [v| |] eqn:Hparse; destruct H as [-> ->];
        unfold restored; rewrite ?lookup_delete_eq, ?Hkey, ?Hempty, ?Hparse; auto.
  - destruct H as [-> ->]. unfold restored. now rewrite Hkey.
Qed.

(** X17.  The session and the snapshot stay in step as long as no
    [login] has its snapshot refused by the storage, with no assumption on
    the store or on what local storage first held: in every state
    reached through page loads, [login], [signup] and [logout] of
    [AuthContext.tsx], where each [login] that got a record back found
    room for its snapshot, a page load would restore exactly the current
    [currentUser]. *)
Theorem reload_restores_session
    (storage : gmap string string) (w : World) (be : Backend)
    (accepts : string -> string -> bool) :
  reachable snapshot_fits storage w ->
  user (snd (AuthContext.AuthProvider_effect be (AuthProvider_init (localStorage w) accepts)))
  = user w.
Proof.
  intros Hreach.
  destruct (effect_restores be (localStorage w) accepts) as [-> _].
  induction Hreach as [be0 accepts0 | be0 w username password _ IH Hfits
                      | be0 w userData _ IH | be0 w _ IH
                      | be0 w accepts0 _ IH | w accepts0 _ IH].
  - now destruct (effect_restores be0 storage accepts0) as [-> ->].
  - destruct (login_cases be0 w username password) as (_ & [H|[H|H]]).
    + destruct H as (_ & row & _ & _ & -> & -> & _). unfold restored, snapshot_text.
      now rewrite lookup_insert_eq, stringify_user_nonempty, parse_stringify_user.
    + destruct H as (_ & row & Hlookup & _ & _ & _ & Hroom).
      rewrite (Hfits row Hlookup) in Hroom. discriminate.
    + destruct H as (_ & -> & -> & _). exact IH.
  - destruct (signup_cases AuthContext_tsx be0 w userData) as (_ & Hu & Hs & _).
    cbn [signup_in] in *. rewrite Hu, Hs. exact IH.
  - destruct (logout_clears_storage AuthContext_tsx be0 w) as [_ Hnone].
    cbn [logout_in] in Hnone. unfold restored. now rewrite Hnone.
  - now destruct (effect_restores be0 (localStorage w) accepts0) as [-> ->].
  - exact IH.
Qed.

Lemma reload_restores_session_witness :
  let w := snd (AuthContext.login "admin" "rahasia" (Table.backend [Table.admin_row])
                  (snd (AuthContext.AuthProvider_effect Table.offline
                          (AuthProvider_init {["tobaku_user" := "{oops"]} roomy)))) in
  user (snd (AuthContext.AuthProvider_effect Table.offline
               (AuthProvider_init (localStorage w) full)))
  = JSON.JObj [("id", JSON.JStr "1"); ("name", JSON.JStr "Administrator");
               ("username", JSON.JStr "admin"); ("role", JSON.JStr "admin");
               ("created_at", JSON.JStr "2024-01-01T00:00:00Z")].
Proof.
  cbv zeta.
  refine (eq_trans (reload_restores_session {["tobaku_user" := "{oops"]} _
                      Table.offline full _) _).
  - apply reach_login; [apply reach_mount | intros row _; reflexivity].
  - reflexivity.
Defined.

(** Without that proviso the two part: after a [login] whose snapshot the
    storage refused, [currentUser] is the administrator while a page load
    would bring back the cashier. *)
Example refused_write_parts_session_and_snapshot :
  let w := snd (AuthContext.login "admin" "rahasia" (Table.backend [Table.admin_row])
                  kasir_session_full) in
  JSON.get (user w) "username" = Some (JSON.JStr "admin")
  /\ JSON.get (user (snd (AuthContext.AuthProvider_effect Table.offline
                            (AuthProvider_init (localStorage w) roomy)))) "username"
     = Some (JSON.JStr "kasir1").
Proof. cbv zeta. split; reflexivity. Qed.

(** X18.  The two versions of [login] decide alike once their password
    checks do: whenever the check of the two demo accounts gives the same
    verdict as the comparison with the stored password (for the row
    returned, if one is), both versions resolve alike and leave the same
    [currentUser], the same local storage and the same request trace.
    (What they show and log is not compared: the toasts differ.) *)
Theorem login_versions_agree
    (be : Backend) (w : World) (username password : string) :
  (forall row,
      select_all be username = Fulfilled (mkResponse (Some row) None) ->
      demo_account username password = String.eqb (Row.password row) password) ->
  fst (Part000.login username password be w) = fst (AuthContext.login username password be w)
  /\ user (snd (Part000.login username password be w))
     = user (snd (AuthContext.login username password be w))
  /\ localStorage (snd (Part000.login username password be w))
     = localStorage (snd (AuthContext.login username password be w))
  /\ network (snd (Part000.login username password be w))
     = network (snd (AuthContext.login username password be w)).
Proof.
  intros Hsame. run_commands. fold (demo_account username password).
  login_answers be username;
    repeat match goal with
    | |- context [if String.eqb (code ?e) ?c then _ else _] =>
        destruct (String.eqb (code e) c); cbn
    end; try (repeat split; fail).
  rewrite (Hsame row eq_refl).
  destruct (String.eqb (Row.password row) password); cbn;
    repeat match goal with
    | |- context [if ?b then _ else _] => destruct b; cbn
    end; repeat split.
Qed.

Lemma login_versions_agree_witness :
  let row := Row.mk "2" "Admin Demo" "admin" "admin" "admin123" "2024-03-01T00:00:00Z" in
  fst (Part000.login "admin" "admin123" (Table.backend [row]) (AuthProvider_init ∅ roomy))
  = Normal true
  /\ user (snd (Part000.login "admin" "admin123" (Table.backend [row]) (AuthProvider_init ∅ roomy)))
     = user (snd (AuthContext.login "admin" "admin123" (Table.backend [row])
                    (AuthProvider_init ∅ roomy))).
Proof.
  cbv zeta. split; [reflexivity|].
  refine (proj1 (proj2 (login_versions_agree
                          (Table.backend [Row.mk "2" "Admin Demo" "admin" "admin" "admin123"
                                                 "2024-03-01T00:00:00Z"])
                          (AuthProvider_init ∅ roomy) "admin" "admin123" _))).
  intros row Hrow. injection Hrow as <-. reflexivity.
Defined.

End Further.
